(** * Cross-validation diagnostics of bofire ([bofire/models/diagnostics.py])

    A shallow embedding of the [CvResult] / [CvResults] containers, their
    pydantic validators, the metric registry and the fold combination, and
    the properties of the specification that were checked against them.

    Conventions of the embedding:
    - a Python exception is an [Err] of the [result] monad; every [raise]
      site of the module has its own constructor of [error];
    - the statistical primitives of sklearn / scipy and numpy's [argsort]
      are not part of the repository: they are the fields of the class
      [StatLib], over which every definition that calls them is
      parametric;
    - a [pd.Series] is the list of its (index label, value) entries, a
      [pd.DataFrame] its column labels and its labelled rows. *)

From Stdlib Require Import ZArith QArith String Ascii.
From stdpp Require Import base tactics option list sorting gmap strings pretty.

Local Open Scope string_scope.
Local Open Scope list_scope.
Local Open Scope nat_scope.

(** ** Exceptions as results *)

Inductive result (E A : Type) : Type :=
| Ok (a : A)
| Err (e : E).
Arguments Ok {E A} a.
Arguments Err {E A} e.

#[global] Instance result_ret {E} : MRet (result E) := fun _ a => Ok a.
#[global] Instance result_bind {E} : MBind (result E) := fun _ _ f r =>
  match r with
  | Ok a => f a
  | Err e => Err e
  end.

(** [for x in l: f x], where [f] may raise: stops at the first exception. *)
Fixpoint for_each {E A} (f : A -> result E unit) (l : list A) : result E unit :=
  match l with
  | [] => Ok ()
  | x :: l' => f x ≫= fun _ => for_each f l'
  end.

(** [[f x for x in l]], where [f] may raise. *)
Fixpoint comprehension {E A B} (f : A -> result E B) (l : list A) : result E (list B) :=
  match l with
  | [] => Ok []
  | x :: l' => y ← f x; ys ← comprehension f l'; Ok (y :: ys)
  end.

(** ** Data *)

(** An element of a series: a float (a rational or a NaN) or an object that
    is not a number, such as a category label or a labcode. *)
Inductive value : Type :=
| Num (x : Q)
| NaN
| Str (s : string).

Definition Series : Type := list (nat * value).

Definition index (s : Series) : list nat := s.*1.
Definition values (s : Series) : list value := s.*2.

Record DataFrame : Type := {
  columns : list string;
  rows : list (nat * list value)
}.

(** [len(X)] of a data frame is its number of rows. *)
Definition frame_len (X : DataFrame) : nat := length (rows X).

(** The fields of a [CvResult] that the validators name. *)
Inductive field : Type :=
| Observed
| Predicted
| StandardDeviation
| Labcodes
| FieldX.

#[global] Instance field_eq_dec : EqDecision field.
Proof. solve_decision. Defined.

(** One constructor per [raise] of the module; [PythonError] is an
    exception that comes from outside it (a library or the interpreter). *)
Inductive error : Type :=
| ShapeMismatch (f1 f2 : field) (n1 n2 : nat)
| NotNumeric (fs : list field)
| EmptyCollection
| KeyMismatch
| FieldPresenceMismatch (f : field)
| ColumnMismatch
| InsufficientSamples
| PythonError (msg : string).

Definition lift_lib {A} (r : result string A) : result error A :=
  match r with
  | Ok a => Ok a
  | Err msg => Err (PythonError msg)
  end.

(** Modelled from the spec: the enumeration [RegressionMetricsEnum] of
    [bofire.utils.enum], which is not among the source files; the closed set
    of metric identifiers MAE, MSD, R2, MAPE, PEARSON, SPEARMAN, FISHER. *)
Inductive RegressionMetricsEnum : Type :=
| MAE
| MSD
| R2
| MAPE
| PEARSON
| SPEARMAN
| FISHER.

#[global] Instance RegressionMetricsEnum_eq_dec : EqDecision RegressionMetricsEnum.
Proof. solve_decision. Defined.

(** [metric.name] of an enumeration member. *)
Definition metric_name (m : RegressionMetricsEnum) : string :=
  match m with
  | MAE => "MAE"
  | MSD => "MSD"
  | R2 => "R2"
  | MAPE => "MAPE"
  | PEARSON => "PEARSON"
  | SPEARMAN => "SPEARMAN"
  | FISHER => "FISHER"
  end.

(** Modelled from the spec: [is_numeric] of [bofire.domain.util], which is
    not among the source files; a series is numeric when every element is
    convertible to a real number. *)
Definition is_numeric (s : Series) : bool :=
  forallb (fun v => match v with Str _ => false | _ => true end) (values s).

(** ** The numerical libraries *)

(** The order numpy sorts floats in: ascending, NaN last. *)
Definition value_le (a b : value) : Prop :=
  match a, b with
  | Num x, Num y => (x <= y)%Q
  | Num _, NaN => True
  | NaN, NaN => True
  | NaN, Num _ => False
  | Str s, Str t => String.leb s t = true
  | Str _, _ => False
  | _, Str _ => True
  end.

Inductive alternative : Type :=
| TwoSided
| Less
| Greater.

(** A 2x2 contingency table [[a, b], [c, d]]. *)
Definition table : Type := (Z * Z) * (Z * Z).

Class StatLib : Type := {
  float : Type;
  (* sklearn.metrics *)
  mean_absolute_error : list value -> list value -> result string float;
  mean_squared_error : list value -> list value -> result string float;
  mean_absolute_percentage_error : list value -> list value -> result string float;
  r2_score : list value -> list value -> result string float;
  (* scipy.stats: each returns the statistic and a p-value *)
  pearsonr : list value -> list value -> result string (float * float);
  spearmanr : list value -> list value -> result string (float * float);
  fisher_exact : table -> alternative -> result string (float * float);
  (* numpy: the indices that sort an array in ascending order *)
  argsort : list value -> list nat;
  argsort_perm : forall a, argsort a ≡ₚ seq 0 (length a);
  argsort_sorted : forall a,
    StronglySorted (fun i j => value_le (nth i a NaN) (nth j a NaN)) (argsort a)
}.

(** Python's [a[start:]], for any integer [start]. *)
Definition slice_from {A} (start : Z) (a : list A) : list A :=
  let n := Z.of_nat (length a) in
  let lo := if (start <? 0)%Z then Z.max (n + start) 0 else Z.min start n in
  drop (Z.to_nat lo) a.

(** [pd.concat(..., ignore_index=True)] of series: the values in order, under
    a fresh index 0, 1, ... *)
Definition reindex {A} (l : list A) : list (nat * A) := zip (seq 0 (length l)) l.

Definition concat_series (ss : list Series) : Series :=
  reindex (concat (values <$> ss)).

(** [pd.concat(..., ignore_index=True)] of data frames, an outer join on
    the columns. *)

(** The columns of the result: the labels of the frames in order of first
    appearance. *)
Definition union_columns (fs : list DataFrame) : list string :=
  foldl (fun acc f => acc ++ filter (fun c => c ∉ acc) (columns f)) [] fs.

(** The cell of a row under a label; a NaN when the label is missing. *)
Fixpoint cell (cols : list string) (row : list value) (c : string) : value :=
  match cols, row with
  | c' :: cols', v :: row' => if decide (c' = c) then v else cell cols' row' c
  | _, _ => NaN
  end.

(** The rows of a frame re-indexed to the target columns. *)
Definition project (target : list string) (f : DataFrame) : list (list value) :=
  (fun r => cell (columns f) r.2 <$> target) <$> rows f.

(** A frame that lists exactly the target columns contributes its rows as
    they are; any other frame is re-indexed. *)
Definition align (target : list string) (f : DataFrame) : list (list value) :=
  if decide (columns f = target) then (rows f).*2 else project target f.

(** pandas re-indexes only frames whose labels are unique. *)
Definition alignable (target : list string) (f : DataFrame) : bool :=
  bool_decide (columns f = target) || bool_decide (NoDup (columns f)).

(** The concatenation, or pandas' [InvalidIndexError] ("Reindexing only
    valid with uniquely valued Index objects"). *)
Definition concat_frames (fs : list DataFrame) : result string DataFrame :=
  let cols := union_columns fs in
  if forallb (alignable cols) fs
  then Ok {| columns := cols; rows := reindex (concat (align cols <$> fs)) |}
  else Err "InvalidIndexError".

(** ** The metric functions and their registry *)

Section Metrics.
Context {L : StatLib}.

Definition _mean_absolute_error (observed predicted : list value)
    (standard_deviation : option Series) : result string float :=
  mean_absolute_error observed predicted.

Definition _mean_squared_error (observed predicted : list value)
    (standard_deviation : option Series) : result string float :=
  mean_squared_error observed predicted.

Definition _mean_absolute_percentage_error (observed predicted : list value)
    (standard_deviation : option Series) : result string float :=
  mean_absolute_percentage_error observed predicted.

Definition _r2_score (observed predicted : list value)
    (standard_deviation : option Series) : result string float :=
  r2_score observed predicted.

Definition _pearson (observed predicted : list value)
    (standard_deviation : option Series) : result string float :=
  '(rho, _) ← pearsonr predicted observed; Ok rho.

Definition _spearman (observed predicted : list value)
    (standard_deviation : option Series) : result string float :=
  '(rho, _) ← spearmanr predicted observed; Ok rho.

Definition _fisher_exact_test_p (observed predicted : list value)
    (standard_deviation : option Series) : result string float :=
  let n_half := (Z.of_nat (length observed) `div` 2)%Z in
  let top_obs := slice_from (- n_half) (argsort observed) in
  let top_est := slice_from (- n_half) (argsort predicted) in
  let tp := Z.of_nat (size ((list_to_set top_est : gset nat) ∩ list_to_set top_obs)) in
  let fp := (n_half - tp)%Z in
  let fn := (n_half - tp)%Z in
  let tn := ((Z.of_nat (length observed) - n_half) - (n_half - tp))%Z in
  '(_, p) ← fisher_exact ((tp, fp), (fn, tn)) Greater; Ok p.

Definition metrics (m : RegressionMetricsEnum)
    : list value -> list value -> option Series -> result string float :=
  match m with
  | MAE => _mean_absolute_error
  | MSD => _mean_squared_error
  | R2 => _r2_score
  | MAPE => _mean_absolute_percentage_error
  | PEARSON => _pearson
  | SPEARMAN => _spearman
  | FISHER => _fisher_exact_test_p
  end.

End Metrics.

(** ** [CvResult]: the results of one fold *)

Module CvResult.

Record t : Type := {
  key : string;
  observed : Series;
  predicted : Series;
  standard_deviation : option Series;
  labcodes : option Series;
  X : option DataFrame
}.

(** [raise ValueError(...)] unless the two lengths agree. *)
Definition check_len (f1 f2 : field) (n1 n2 : nat) : result error unit :=
  if negb (n1 =? n2) then Err (ShapeMismatch f1 f2 n1 n2) else Ok ().

(** The root validator ([pre=True]): it sees the constructor's arguments. *)
Definition validate_shapes (values : t) : result error t :=
  let n := length (predicted values) in
  _ ← check_len Predicted Observed n (length (observed values));
  _ ← match standard_deviation values with
      | Some sd => check_len Predicted StandardDeviation n (length sd)
      | None => Ok ()
      end;
  _ ← match labcodes values with
      | Some lc => check_len Predicted Labcodes n (length lc)
      | None => Ok ()
      end;
  _ ← match X values with
      | Some x => check_len Predicted FieldX n (frame_len x)
      | None => Ok ()
      end;
  Ok values.

Definition validate_observed (v : Series) : result error Series :=
  if negb (is_numeric v) then Err (NotNumeric [Observed]) else Ok v.

Definition validate_predicted (v : Series) : result error Series :=
  if negb (is_numeric v) then Err (NotNumeric [Predicted]) else Ok v.

Definition validate_standard_deviation (v : option Series) : result error (option Series) :=
  match v with
  | Some sd => if negb (is_numeric sd) then Err (NotNumeric [StandardDeviation]) else Ok v
  | None => Ok v
  end.

(** The fields a field validator rejected. *)
Definition rejected {A} (r : result error A) : list field :=
  match r with
  | Err (NotNumeric fs) => fs
  | _ => []
  end.

(** [CvResult(key=..., observed=..., ...)]: pydantic runs the pre root
    validator, whose exception ends the construction, and then the field
    validators in the order of the fields, whose exceptions it collects
    into one. *)
Definition new (values : t) : result error t :=
  values ← validate_shapes values;
  match rejected (validate_observed (observed values))
        ++ rejected (validate_predicted (predicted values))
        ++ rejected (validate_standard_deviation (standard_deviation values)) with
  | [] => Ok values
  | fs => Err (NotNumeric fs)
  end.

Definition n_samples (self : t) : nat := length (observed self).

Definition get_metric `{StatLib} (self : t) (metric : RegressionMetricsEnum)
    : result error float :=
  if n_samples self =? 1 then Err InsufficientSamples
  else lift_lib (metrics metric (values (observed self)) (values (predicted self))
                   (standard_deviation self)).

(** [getattr(cv, field) is not None] for the three optional fields. *)
Definition has_field (f : field) (cv : t) : bool :=
  match f with
  | StandardDeviation => bool_decide (is_Some (standard_deviation cv))
  | Labcodes => bool_decide (is_Some (labcodes cv))
  | FieldX => bool_decide (is_Some (X cv))
  | _ => true
  end.

End CvResult.

(** ** The order on column labels *)

Definition string_le (s1 s2 : string) : Prop := String.leb s1 s2 = true.

#[global] Instance string_le_dec : RelDecision string_le.
Proof. intros s1 s2. unfold string_le. apply _. Defined.

(** [sorted(list(X.columns))] *)
Definition sorted (cols : list string) : list string := merge_sort string_le cols.

(** A series of metric values, named after the metric. *)
Record MetricSeries {A : Type} : Type := {
  name : string;
  data : list A
}.
Arguments MetricSeries A : clear implicits.

(** ** [CvResults]: all folds of a cross-validation run *)

Module CvResults.

Record t : Type := { results : list CvResult.t }.

Definition validate_results (v : list CvResult.t) : result error (list CvResult.t) :=
  if length v <=? 1 then Err EmptyCollection
  else
    v0 ← from_option Ok (Err (PythonError "IndexError")) (v !! 0);
    let key := CvResult.key v0 in
    _ ← for_each (fun i =>
           if negb (String.eqb (CvResult.key i) key) then Err KeyMismatch else Ok ()) v;
    _ ← for_each (fun field =>
           let has_field := CvResult.has_field field v0 in
           for_each (fun i =>
             let has_i := CvResult.has_field field i in
             if negb (eqb has_field has_i) then Err (FieldPresenceMismatch field)
             else Ok ()) v)
         [StandardDeviation; Labcodes; FieldX];
    _ ← match CvResult.X v0 with
        | Some X0 =>
            let cols := sorted (columns X0) in
            for_each (fun i =>
              Xi ← from_option Ok (Err (PythonError "AttributeError")) (CvResult.X i);
              if negb (bool_decide (sorted (columns Xi) = cols)) then Err ColumnMismatch
              else Ok ()) v
        | None => Ok ()
        end;
    Ok v.

(** [CvResults(results=...)] *)
Definition new (results : list CvResult.t) : result error t :=
  v ← validate_results results; Ok {| results := v |}.

Definition __len__ (self : t) : nat := length (results self).

Definition __iter__ (self : t) : list CvResult.t := results self.

(** [self.results[i]] for an integer [i]: a negative index counts from the
    end, and an index out of range raises [IndexError]. *)
Definition __getitem__ (self : t) (i : Z) : result error CvResult.t :=
  let n := Z.of_nat (length (results self)) in
  let j := if (i <? 0)%Z then (i + n)%Z else i in
  if (0 <=? j)%Z && (j <? n)%Z
  then from_option Ok (Err (PythonError "IndexError")) (results self !! Z.to_nat j)
  else Err (PythonError "IndexError").

Definition key (self : t) : result error string :=
  r0 ← from_option Ok (Err (PythonError "IndexError")) (results self !! 0);
  Ok (CvResult.key r0).

Definition is_loo (self : t) : bool :=
  forallb (fun r => CvResult.n_samples r =? 1) (results self).

(** [pd.concat] drops the [None] entries of its argument, hence [omap]. *)
Definition _combine_folds (self : t) : result error CvResult.t :=
  let observed := concat_series (CvResult.observed <$> results self) in
  let predicted := concat_series (CvResult.predicted <$> results self) in
  r0 ← from_option Ok (Err (PythonError "IndexError")) (results self !! 0);
  let sd :=
    if CvResult.standard_deviation r0 is Some _
    then Some (concat_series (omap CvResult.standard_deviation (results self)))
    else None in
  let labcodes :=
    if CvResult.labcodes r0 is Some _
    then Some (concat_series (omap CvResult.labcodes (results self)))
    else None in
  X ← (if CvResult.X r0 is Some _
       then x ← lift_lib (concat_frames (omap CvResult.X (results self))); Ok (Some x)
       else Ok None);
  CvResult.new {|
    CvResult.key := CvResult.key r0;
    CvResult.observed := observed;
    CvResult.predicted := predicted;
    CvResult.standard_deviation := sd;
    CvResult.labcodes := labcodes;
    CvResult.X := X
  |}.

Definition get_metric `{StatLib} (self : t) (metric : RegressionMetricsEnum)
    (combine_folds : bool) : result error (MetricSeries float) :=
  if is_loo self || combine_folds then
    cv ← _combine_folds self;
    x ← CvResult.get_metric cv metric;
    Ok {| name := metric_name metric; data := [x] |}
  else
    xs ← comprehension (fun cv => CvResult.get_metric cv metric) (results self);
    Ok {| name := metric_name metric; data := xs |}.

Definition default_metrics : list RegressionMetricsEnum :=
  [MAE; MSD; R2; MAPE; PEARSON; SPEARMAN; FISHER].

(** [pd.concat(series, axis=1)]: the table, as the list of its named columns;
    pandas raises a [ValueError] when there is nothing to concatenate. *)
Definition concat_columns {A} (series : list (MetricSeries A))
    : result string (list (MetricSeries A)) :=
  match series with
  | [] => Err "ValueError: No objects to concatenate"
  | _ => Ok series
  end.

Definition get_metrics `{StatLib} (self : t) (metrics : list RegressionMetricsEnum)
    (combine_folds : bool) : result error (list (MetricSeries float)) :=
  series ← comprehension (fun m => get_metric self m combine_folds) metrics;
  lift_lib (concat_columns series).

End CvResults.

(** ** Orders: column labels and array elements *)

Section Orders.

Lemma string_compare_trans (s1 s2 s3 : string) :
  String.compare s1 s2 <> Gt -> String.compare s2 s3 <> Gt -> String.compare s1 s3 <> Gt.
Proof.
  revert s2 s3. induction s1 as [|c1 s1 IH]; intros [|c2 s2] [|c3 s3]; simpl; try congruence.
  unfold Ascii.compare.
  destruct (N.compare_spec (N_of_ascii c1) (N_of_ascii c2)) as [E12|L12|G12];
    destruct (N.compare_spec (N_of_ascii c2) (N_of_ascii c3)) as [E23|L23|G23];
    destruct (N.compare_spec (N_of_ascii c1) (N_of_ascii c3)) as [E13|L13|G13];
    try congruence; try lia.
  apply IH.
Qed.

#[global] Instance string_le_trans : Transitive string_le.
Proof.
  intros s1 s2 s3. unfold string_le, String.leb. intros H12 H23.
  pose proof (string_compare_trans s1 s2 s3) as T.
  destruct (String.compare s1 s2); try discriminate;
    destruct (String.compare s2 s3); try discriminate;
    destruct (String.compare s1 s3); auto; exfalso; apply T; congruence.
Qed.

#[global] Instance string_le_total : Total string_le.
Proof. intros s1 s2. apply String.leb_total. Qed.

#[global] Instance string_le_antisym : AntiSymm (=) string_le.
Proof. intros s1 s2. apply String.leb_antisym. Qed.

(** Sorting the labels decides whether two label lists agree up to order. *)
Lemma sorted_eq_iff (l1 l2 : list string) : sorted l1 = sorted l2 <-> l1 ≡ₚ l2.
Proof.
  unfold sorted. split.
  - intros E. rewrite <- (merge_sort_Permutation string_le l1), E.
    apply merge_sort_Permutation.
  - intros P. apply (Sorted_unique string_le).
    + apply Sorted_merge_sort, _.
    + apply Sorted_merge_sort, _.
    + by rewrite !merge_sort_Permutation.
Qed.

#[global] Instance value_le_dec : RelDecision value_le.
Proof.
  intros [x| |s] [y| |t]; simpl; try apply _.
  destruct (Qlt_le_dec y x) as [Hlt|Hle]; [right|left; exact Hle].
  intros Hle. exact (Qlt_not_le _ _ Hlt Hle).
Defined.

#[global] Instance value_le_trans : Transitive value_le.
Proof.
  intros [x| |s] [y| |t] [z| |u]; simpl; try tauto.
  - apply Qle_trans.
  - apply string_le_trans.
Qed.

#[global] Instance value_le_total : Total value_le.
Proof.
  intros [x| |s] [y| |t]; simpl; try tauto.
  - destruct (Qlt_le_dec y x) as [Hlt|Hle]; [right; by apply Qlt_le_weak|by left].
  - apply String.leb_total.
Qed.

End Orders.

(** ** A reference instance of the numerical libraries

    The statistics are left uninterpreted: every primitive returns the term
    that names its call, so that two results agree only when the calls do.
    [argsort] is a merge sort of the indices by their values. *)

Module Reference.

Inductive stat : Type :=
| mae_of (y_true y_pred : list value)
| mse_of (y_true y_pred : list value)
| mape_of (y_true y_pred : list value)
| r2_of (y_true y_pred : list value)
| pearson_r (x y : list value)
| pearson_p (x y : list value)
| spearman_r (x y : list value)
| spearman_p (x y : list value)
| odds_ratio (t : table)
| p_value (t : table) (alt : alternative).

Definition index_le (a : list value) (i j : nat) : Prop :=
  value_le (nth i a NaN) (nth j a NaN).

#[global] Instance index_le_dec a : RelDecision (index_le a).
Proof. intros i j. unfold index_le. apply _. Defined.

Definition merge_argsort (a : list value) : list nat :=
  merge_sort (index_le a) (seq 0 (length a)).

Lemma merge_argsort_perm (a : list value) : merge_argsort a ≡ₚ seq 0 (length a).
Proof. apply merge_sort_Permutation. Qed.

Lemma merge_argsort_sorted (a : list value) : StronglySorted (index_le a) (merge_argsort a).
Proof.
  apply StronglySorted_merge_sort.
  - intros i j k. apply value_le_trans.
  - intros i j. apply value_le_total.
Qed.

#[global] Instance lib : StatLib := {|
  float := stat;
  mean_absolute_error o p := Ok (mae_of o p);
  mean_squared_error o p := Ok (mse_of o p);
  mean_absolute_percentage_error o p := Ok (mape_of o p);
  r2_score o p := Ok (r2_of o p);
  pearsonr x y := Ok (pearson_r x y, pearson_p x y);
  spearmanr x y := Ok (spearman_r x y, spearman_p x y);
  fisher_exact t alt := Ok (odds_ratio t, p_value t alt);
  argsort := merge_argsort;
  argsort_perm := merge_argsort_perm;
  argsort_sorted := merge_argsort_sorted
|}.

End Reference.

(** ** Constructed objects *)

(** A fold that some call of the constructor returned. *)
Definition constructed (cv : CvResult.t) : Prop :=
  exists args, CvResult.new args = Ok cv.

(** A collection that the constructor returned for constructed folds. *)
Definition valid_collection (c : CvResults.t) : Prop :=
  Forall constructed (CvResults.results c) /\
  exists folds, CvResults.new folds = Ok c.

(** The length of a field of the constructor's arguments, when present. *)
Definition field_len (a : CvResult.t) (f : field) : option nat :=
  match f with
  | Observed => Some (length (CvResult.observed a))
  | Predicted => Some (length (CvResult.predicted a))
  | StandardDeviation => length <$> CvResult.standard_deviation a
  | Labcodes => length <$> CvResult.labcodes a
  | FieldX => frame_len <$> CvResult.X a
  end.

(** Every present field is as long as [observed]. *)
Definition shapes_agree (a : CvResult.t) : Prop :=
  forall f n, field_len a f = Some n -> n = length (CvResult.observed a).

Definition all_numeric (a : CvResult.t) : Prop :=
  is_numeric (CvResult.observed a) = true /\
  is_numeric (CvResult.predicted a) = true /\
  forall sd, CvResult.standard_deviation a = Some sd -> is_numeric sd = true.

Section FoldConstruction.

(** The branch of [validate_shapes_spec] in which field [F], of length [m],
    is the first to disagree with [predicted]. *)
Ltac shape_mismatch F m :=
  right; split;
  [ let H := fresh in
    intros H; pose proof (H Predicted _ eq_refl); pose proof (H F _ eq_refl);
    simpl in *; congruence
  | exists F, m; simpl; split; [reflexivity | split; [congruence | reflexivity]] ].

(** The root validator either returns its argument or reports two fields of
    different lengths, with their lengths. *)
Lemma validate_shapes_spec (a : CvResult.t) :
  (shapes_agree a /\ CvResult.validate_shapes a = Ok a) \/
  (~ shapes_agree a /\
   exists f n, field_len a f = Some n /\ n <> length (CvResult.predicted a) /\
     CvResult.validate_shapes a
       = Err (ShapeMismatch Predicted f (length (CvResult.predicted a)) n)).
Proof.
  destruct a as [k o p sd lc x]. unfold CvResult.validate_shapes, shapes_agree. simpl.
  unfold CvResult.check_len.
  destruct (Nat.eqb_spec (length p) (length o)); simpl;
    [| shape_mismatch Observed (length o)].
  destruct sd as [sd|]; simpl;
    [destruct (Nat.eqb_spec (length p) (length sd)); simpl;
       [| shape_mismatch StandardDeviation (length sd)] |];
    (destruct lc as [lc|]; simpl;
       [destruct (Nat.eqb_spec (length p) (length lc)); simpl;
          [| shape_mismatch Labcodes (length lc)] |]);
    (destruct x as [x|]; simpl;
       [destruct (Nat.eqb_spec (length p) (frame_len x)); simpl;
          [| shape_mismatch FieldX (frame_len x)] |]);
    (left; split; [intros [] m; simpl; intros [= <-]; congruence | reflexivity]).
Qed.

(** What the field validators do once the shapes agree. *)
Lemma new_after_shapes (a : CvResult.t) :
  shapes_agree a ->
  (all_numeric a /\ CvResult.new a = Ok a) \/
  (~ all_numeric a /\ exists fs, fs <> [] /\ CvResult.new a = Err (NotNumeric fs)).
Proof.
  intros Hs. unfold CvResult.new.
  destruct (validate_shapes_spec a) as [[_ ->]|[Hn _]]; [|tauto]. simpl.
  unfold all_numeric, CvResult.validate_observed, CvResult.validate_predicted,
    CvResult.validate_standard_deviation.
  destruct (is_numeric (CvResult.observed a)) eqn:Eo;
    destruct (is_numeric (CvResult.predicted a)) eqn:Ep;
    destruct (CvResult.standard_deviation a) as [sd|] eqn:Esd;
    try destruct (is_numeric sd) eqn:Es; simpl;
    first
      [ left; split; [|reflexivity]; repeat split; try done; intros ? [= <-]; done
      | right; split;
        [ intros (? & ? & Hsd); try specialize (Hsd _ eq_refl); congruence
        | eexists; split; [|reflexivity]; discriminate ] ].
Qed.

(** Construction succeeds exactly on arguments whose shapes agree and whose
    numeric fields are numeric, and it returns them unchanged. *)
Lemma new_Ok_iff (a cv : CvResult.t) :
  CvResult.new a = Ok cv <-> cv = a /\ shapes_agree a /\ all_numeric a.
Proof.
  split.
  - intros H. destruct (validate_shapes_spec a) as [[Hs E]|[Hn (f & n & _ & _ & E)]].
    + destruct (new_after_shapes a Hs) as [[Hnum E']|[_ (fs & _ & E')]];
        rewrite E' in H; [|discriminate].
      injection H as <-. auto.
    + unfold CvResult.new in H. rewrite E in H. discriminate.
  - intros (-> & Hs & Hnum).
    destruct (new_after_shapes a Hs) as [[_ E]|[Hn _]]; [exact E|tauto].
Qed.

Lemma constructed_iff (cv : CvResult.t) :
  constructed cv <-> shapes_agree cv /\ all_numeric cv.
Proof.
  split.
  - intros [a H]. apply new_Ok_iff in H as (-> & ? & ?). auto.
  - intros [? ?]. exists cv. by apply new_Ok_iff.
Qed.

Lemma constructed_predicted_len (cv : CvResult.t) :
  constructed cv -> length (CvResult.predicted cv) = CvResult.n_samples cv.
Proof. intros [Hs _]%constructed_iff. exact (Hs Predicted _ eq_refl). Qed.

End FoldConstruction.

(** ** Properties of one fold *)

(** A series of floats under the default index. *)
Definition series_of (l : list Q) : Series := reindex (Num <$> l).

Definition fold_of (k : string) (o p : Series) (sd lc : option Series)
    (x : option DataFrame) : CvResult.t :=
  {| CvResult.key := k; CvResult.observed := o; CvResult.predicted := p;
     CvResult.standard_deviation := sd; CvResult.labcodes := lc; CvResult.X := x |}.

(** The fold without samples. *)
Definition empty_fold (k : string) : CvResult.t := fold_of k [] [] None None None.

Lemma shapes_disagree (a : CvResult.t) :
  (length (CvResult.observed a) <> length (CvResult.predicted a) \/
   (exists sd, CvResult.standard_deviation a = Some sd /\
      length sd <> length (CvResult.observed a)) \/
   (exists lc, CvResult.labcodes a = Some lc /\
      length lc <> length (CvResult.observed a)) \/
   (exists x, CvResult.X a = Some x /\ frame_len x <> length (CvResult.observed a))) ->
  ~ shapes_agree a.
Proof.
  intros H Hs. destruct H as [H|[(sd & E & H)|[(lc & E & H)|(x & E & H)]]]; apply H.
  - symmetry. exact (Hs Predicted _ eq_refl).
  - apply (Hs StandardDeviation). simpl. by rewrite E.
  - apply (Hs Labcodes). simpl. by rewrite E.
  - apply (Hs FieldX). simpl. by rewrite E.
Qed.

(** C6: constructing a fold fails with ShapeMismatch, naming two fields of
    the arguments and their two different lengths, whenever observed and
    predicted differ in length or a present standard_deviation, labcodes or
    X (by its row count) differs in length from observed. Nothing is
    assumed about the elements: the shapes are checked before the numeric
    types, so arguments that break both fail with ShapeMismatch and not with
    NotNumeric. *)
Theorem shape_mismatch_reported_first (a : CvResult.t) :
  (length (CvResult.observed a) <> length (CvResult.predicted a) \/
   (exists sd, CvResult.standard_deviation a = Some sd /\
      length sd <> length (CvResult.observed a)) \/
   (exists lc, CvResult.labcodes a = Some lc /\
      length lc <> length (CvResult.observed a)) \/
   (exists x, CvResult.X a = Some x /\ frame_len x <> length (CvResult.observed a))) ->
  (exists f1 f2 n1 n2,
     CvResult.new a = Err (ShapeMismatch f1 f2 n1 n2) /\
     field_len a f1 = Some n1 /\ field_len a f2 = Some n2 /\ n1 <> n2) /\
  (forall fs, CvResult.new a <> Err (NotNumeric fs)).
Proof.
  intros H%shapes_disagree.
  destruct (validate_shapes_spec a) as [[Hs _]|[_ (f & n & Hf & Hn & E)]]; [tauto|].
  assert (CvResult.new a = Err (ShapeMismatch Predicted f (length (CvResult.predicted a)) n))
    as E' by (unfold CvResult.new; by rewrite E).
  split.
  - exists Predicted, f, (length (CvResult.predicted a)), n. repeat split; auto.
  - intros fs. rewrite E'. discriminate.
Qed.

(** Arguments that break a shape constraint and a numeric one: observed has
    two elements, one of them a label, and predicted has one. *)
Definition misshapen_fold : CvResult.t :=
  fold_of "a" [(0, Str "high"); (1, Num (1#1))] (series_of [1#1]) None None None.

Lemma shape_mismatch_reported_first_witness :
  is_numeric (CvResult.observed misshapen_fold) = false /\
  CvResult.new misshapen_fold = Err (ShapeMismatch Predicted Observed 1 2) /\
  (forall fs, CvResult.new misshapen_fold <> Err (NotNumeric fs)).
Proof.
  split; [reflexivity|]. split; [reflexivity|].
  apply (shape_mismatch_reported_first misshapen_fold).
  left. simpl. discriminate.
Defined.

(** C7, as the code has it: construction succeeds on all arguments whose
    present fields have one common length N and whose observed, predicted
    and standard_deviation are numeric, for any natural number N, zero
    included; the fold it returns has n_samples = N, the length of its
    observed and of its predicted. *)
Theorem construction_at_any_length (a : CvResult.t) :
  shapes_agree a -> all_numeric a ->
  CvResult.new a = Ok a /\
  (forall cv, CvResult.new a = Ok cv ->
     CvResult.n_samples cv = length (CvResult.observed a) /\
     length (CvResult.predicted cv) = CvResult.n_samples cv).
Proof.
  intros Hs Hn. split; [by apply new_Ok_iff|].
  intros cv (-> & _ & _)%new_Ok_iff. split; [reflexivity|].
  exact (Hs Predicted _ eq_refl).
Qed.

Lemma empty_fold_shapes (k : string) : shapes_agree (empty_fold k).
Proof. intros [] n; simpl; intros [= <-]; reflexivity. Defined.

Lemma empty_fold_numeric (k : string) : all_numeric (empty_fold k).
Proof. repeat split. intros sd [=]. Defined.

Lemma construction_at_any_length_witness :
  CvResult.new (empty_fold "a") = Ok (empty_fold "a") /\
  (forall cv, CvResult.new (empty_fold "a") = Ok cv ->
     CvResult.n_samples cv = 0 /\ length (CvResult.predicted cv) = CvResult.n_samples cv).
Proof.
  apply (construction_at_any_length (empty_fold "a")).
  - apply empty_fold_shapes.
  - apply empty_fold_numeric.
Defined.

(** Against C7 as stated: the constructor accepts zero-length observed and
    predicted, and the fold it returns has no sample. *)
Lemma fold_without_samples :
  CvResult.new (empty_fold "a") = Ok (empty_fold "a") /\
  ~ (1 <= CvResult.n_samples (empty_fold "a")).
Proof. split; [reflexivity|]. unfold CvResult.n_samples. simpl. lia. Qed.

Section FoldMetric.
Context {L : StatLib}.

Lemma lift_lib_not_insufficient {A} (r : result string A) :
  lift_lib r <> Err InsufficientSamples.
Proof. destruct r; discriminate. Qed.

(** Every function of the registry ignores the standard deviation. *)
Lemma metrics_ignore_sd (m : RegressionMetricsEnum) (o p : list value)
    (sd sd' : option Series) :
  metrics m o p sd = metrics m o p sd'.
Proof. destruct m; reflexivity. Qed.

(** Past the guard, GetMetric is the registered function on the stored
    arrays. *)
Lemma get_metric_unguarded (cv : CvResult.t) (m : RegressionMetricsEnum) :
  CvResult.n_samples cv <> 1 ->
  CvResult.get_metric cv m
    = lift_lib (metrics m (values (CvResult.observed cv))
                  (values (CvResult.predicted cv))
                  (CvResult.standard_deviation cv)).
Proof.
  intros N. unfold CvResult.get_metric.
  by destruct (Nat.eqb_spec (CvResult.n_samples cv) 1).
Qed.

(** C1, as the code has it: the guard of GetMetric is n_samples = 1. A fold
    with exactly one sample fails with InsufficientSamples whatever the
    metric; a fold with any other number of samples, more than one or none,
    gets the registered function applied to its stored observed, predicted
    and standard_deviation; so InsufficientSamples is raised exactly at one
    sample. *)
Theorem get_metric_guard (cv : CvResult.t) (m : RegressionMetricsEnum) :
  (CvResult.n_samples cv = 1 -> CvResult.get_metric cv m = Err InsufficientSamples) /\
  (CvResult.n_samples cv <> 1 ->
     CvResult.get_metric cv m
       = lift_lib (metrics m (values (CvResult.observed cv))
                     (values (CvResult.predicted cv))
                     (CvResult.standard_deviation cv))) /\
  (CvResult.get_metric cv m = Err InsufficientSamples <-> CvResult.n_samples cv = 1).
Proof.
  split; [|split; [apply get_metric_unguarded|]].
  - unfold CvResult.get_metric. by intros ->.
  - split.
    + intros H. destruct (decide (CvResult.n_samples cv = 1)) as [|N]; [done|].
      rewrite (get_metric_unguarded cv m N) in H. by apply lift_lib_not_insufficient in H.
    + unfold CvResult.get_metric. by intros ->.
Qed.

(** C9: on folds with more than one sample, GetMetric does not depend on
    the standard deviation: two folds with the same observed and the same
    predicted get the same value for every metric of the registry, whatever
    their standard deviations are, present or absent. *)
Theorem get_metric_ignores_sd (cv1 cv2 : CvResult.t) (m : RegressionMetricsEnum) :
  CvResult.n_samples cv1 > 1 ->
  CvResult.observed cv1 = CvResult.observed cv2 ->
  CvResult.predicted cv1 = CvResult.predicted cv2 ->
  CvResult.get_metric cv1 m = CvResult.get_metric cv2 m /\
  CvResult.get_metric cv1 m
    = lift_lib (metrics m (values (CvResult.observed cv1))
                  (values (CvResult.predicted cv1)) None).
Proof.
  intros Hn Eo Ep. unfold CvResult.get_metric, CvResult.n_samples.
  rewrite <- Eo, <- Ep.
  destruct (Nat.eqb_spec (length (CvResult.observed cv1)) 1) as [E|_].
  - unfold CvResult.n_samples in Hn. lia.
  - split; f_equal; apply metrics_ignore_sd.
Qed.

Lemma single_sample_fold_fails (r : CvResult.t) (m : RegressionMetricsEnum) :
  CvResult.n_samples r = 1 -> CvResult.get_metric r m = Err InsufficientSamples.
Proof. intros E. unfold CvResult.get_metric. by rewrite E. Qed.

Lemma library_failure (r : CvResult.t) (m : RegressionMetricsEnum) (e : error) :
  CvResult.n_samples r <> 1 -> CvResult.get_metric r m = Err e ->
  exists msg, metrics m (values (CvResult.observed r)) (values (CvResult.predicted r))
                (CvResult.standard_deviation r) = Err msg /\ e = PythonError msg.
Proof.
  intros Hn. rewrite (get_metric_unguarded r m Hn).
  destruct (metrics m _ _ _) as [x|msg]; simpl; [discriminate|].
  intros [= <-]. by exists msg.
Qed.

End FoldMetric.

(** Against C1 as stated: the fold without samples has at most one sample,
    and GetMetric does not fail with InsufficientSamples on it, for any
    library and any metric; with the reference library the FISHER metric is
    the p-value of the all-zero table. *)
Lemma empty_fold_reaches_metric :
  CvResult.new (empty_fold "a") = Ok (empty_fold "a") /\
  CvResult.n_samples (empty_fold "a") <= 1 /\
  (forall (L : StatLib) (m : RegressionMetricsEnum),
     CvResult.get_metric (empty_fold "a") m <> Err InsufficientSamples) /\
  CvResult.get_metric (H := Reference.lib) (empty_fold "a") FISHER
    = Ok (Reference.p_value ((0, 0), (0, 0))%Z Greater).
Proof.
  split; [reflexivity|]. split; [unfold CvResult.n_samples; simpl; lia|].
  split; [|reflexivity].
  intros L m. unfold CvResult.get_metric. simpl. apply lift_lib_not_insufficient.
Qed.

(** Two folds that differ in the standard deviation only. *)
Definition fold_plain : CvResult.t :=
  fold_of "a" (series_of [1#1; 2#1; 4#1]) (series_of [3#2; 2#1; 3#1]) None None None.

Definition fold_with_sd : CvResult.t :=
  fold_of "a" (series_of [1#1; 2#1; 4#1]) (series_of [3#2; 2#1; 3#1])
    (Some (series_of [1#10; 2#10; 1#10])) None None.

Lemma get_metric_ignores_sd_witness :
  CvResult.get_metric (H := Reference.lib) fold_plain MAE
    = CvResult.get_metric (H := Reference.lib) fold_with_sd MAE /\
  CvResult.get_metric (H := Reference.lib) fold_plain MAE
    = Ok (Reference.mae_of (Num <$> [1#1; 2#1; 4#1]) (Num <$> [3#2; 2#1; 3#1])).
Proof.
  apply (get_metric_ignores_sd (L := Reference.lib) fold_plain fold_with_sd MAE).
  - unfold CvResult.n_samples. simpl. lia.
  - reflexivity.
  - reflexivity.
Defined.

(** ** Constructing a collection *)

Section Loops.
Context {E A : Type}.

(** A loop whose body raises one exception under a test raises it when
    some element passes the test. *)
Lemma for_each_test (test : A -> bool) (e : E) (l : list A) :
  for_each (fun x => if test x then Err e else Ok ()) l
  = if existsb test l then Err e else Ok ().
Proof.
  induction l as [|x l IH]; simpl; [reflexivity|].
  destruct (test x); simpl; [reflexivity|exact IH].
Qed.

Lemma for_each_ext (f g : A -> result E unit) (l : list A) :
  (forall x, x ∈ l -> f x = g x) -> for_each f l = for_each g l.
Proof.
  induction l as [|x l IH]; simpl; intros H; [reflexivity|].
  rewrite (H x) by left. rewrite IH; [reflexivity|].
  intros y Hy. apply H. by right.
Qed.

Lemma comprehension_Ok {B} (f : A -> result E B) (l : list A) (ys : list B) :
  comprehension f l = Ok ys <-> Forall2 (fun x y => f x = Ok y) l ys.
Proof.
  revert ys. induction l as [|x l IH]; simpl; intros ys.
  - split; [intros [= <-]; constructor|by intros ->%Forall2_nil_inv_l].
  - destruct (f x) as [y|e] eqn:Ex; simpl.
    + destruct (comprehension f l) as [zs|e] eqn:El; simpl.
      * split.
        -- intros [= <-]. constructor; [done|]. by apply IH.
        -- intros (y' & zs' & Hy & Hz & ->)%Forall2_cons_inv_l.
           apply IH in Hz. congruence.
      * split; [discriminate|].
        intros (y' & zs' & Hy & Hz & ->)%Forall2_cons_inv_l.
        apply IH in Hz. discriminate.
    + split; [discriminate|].
      intros (y' & zs' & Hy & Hz & ->)%Forall2_cons_inv_l. congruence.
Qed.

Lemma comprehension_Err {B} (f : A -> result E B) (l : list A) (e : E) :
  comprehension f l = Err e -> exists x, x ∈ l /\ f x = Err e.
Proof.
  induction l as [|x l IH]; simpl; [discriminate|].
  destruct (f x) as [y|e'] eqn:Ex; simpl.
  - destruct (comprehension f l) as [zs|e''] eqn:El; simpl; [discriminate|].
    intros [= <-]. destruct (IH eq_refl) as (z & Hz & Ez). exists z. split; [by right|done].
  - intros [= <-]. exists x. split; [by left|done].
Qed.

(** A comprehension raises the exception of the first element at which its
    body raises. *)
Lemma comprehension_first_Err {B} (f : A -> result E B) (pre : list A) (x : A)
    (post : list A) (e : E) :
  Forall (fun y => exists b, f y = Ok b) pre -> f x = Err e ->
  comprehension f (pre ++ x :: post) = Err e.
Proof.
  intros Hpre Ex. induction Hpre as [|y pre [b Ey] _ IH]; simpl.
  - by rewrite Ex.
  - by rewrite Ey, IH.
Qed.

Lemma comprehension_Err_first {B} (f : A -> result E B) (l : list A) (e : E) :
  comprehension f l = Err e ->
  exists pre x post, l = pre ++ x :: post /\
    Forall (fun y => exists b, f y = Ok b) pre /\ f x = Err e.
Proof.
  induction l as [|x l IH]; simpl; [discriminate|].
  destruct (f x) as [y|e'] eqn:Ex; simpl.
  - destruct (comprehension f l) as [zs|e''] eqn:El; simpl; [discriminate|].
    intros [= <-]. destruct (IH eq_refl) as (pre & z & post & -> & Hpre & Ez).
    exists (x :: pre), z, post. split; [done|]. split; [|done].
    constructor; [by exists y|done].
  - intros [= <-]. exists [], x, l. split; [done|]. split; [constructor|done].
Qed.

End Loops.

(** The conditions under which the constructor of a collection fails. *)

Definition optional_fields : list field := [StandardDeviation; Labcodes; FieldX].

(** Fewer than two folds. *)
Definition too_few (v : list CvResult.t) : Prop := length v < 2.

(** Some fold's key differs from the first fold's key. *)
Definition key_differs (v : list CvResult.t) : Prop :=
  exists r0 r, head v = Some r0 /\ r ∈ v /\ CvResult.key r <> CvResult.key r0.

(** Some folds have the field and others do not. *)
Definition presence_mixed (f : field) (v : list CvResult.t) : Prop :=
  exists r r', r ∈ v /\ r' ∈ v /\
    CvResult.has_field f r = true /\ CvResult.has_field f r' = false.

(** Two folds have an X whose column labels are not the same up to order
    (labels that occur several times count as often as they occur). *)
Definition columns_differ (v : list CvResult.t) : Prop :=
  exists r r' x x', r ∈ v /\ r' ∈ v /\ CvResult.X r = Some x /\ CvResult.X r' = Some x' /\
    ~ columns x ≡ₚ columns x'.

(** Two folds have an X whose sets of column labels differ. *)
Definition column_sets_differ (v : list CvResult.t) : Prop :=
  exists r r' x x', r ∈ v /\ r' ∈ v /\ CvResult.X r = Some x /\ CvResult.X r' = Some x' /\
    (list_to_set (columns x) : gset string) <> list_to_set (columns x').

Lemma column_sets_differ_columns_differ (v : list CvResult.t) :
  column_sets_differ v -> columns_differ v.
Proof.
  intros (r & r' & x & x' & ? & ? & ? & ? & Hne).
  exists r, r', x, x'. repeat split; try done.
  intros P. apply Hne. apply set_eq. intros c.
  rewrite !elem_of_list_to_set. by rewrite P.
Qed.

Section CollectionConstruction.

Lemma existsb_elem_of {A} (test : A -> bool) (l : list A) :
  existsb test l = true <-> exists x, x ∈ l /\ test x = true.
Proof.
  rewrite existsb_exists. split; intros (x & Hx & Ht); exists x; split; try done;
    by apply list_elem_of_In.
Qed.

Lemma existsb_false_elem_of {A} (test : A -> bool) (l : list A) :
  existsb test l = false <-> forall x, x ∈ l -> test x = false.
Proof.
  split.
  - intros H x Hx. destruct (test x) eqn:Et; [|done].
    assert (existsb test l = true) by (apply existsb_elem_of; eauto). congruence.
  - intros H. destruct (existsb test l) eqn:Ee; [|done].
    apply existsb_elem_of in Ee as (x & Hx & Ht). rewrite (H x Hx) in Ht. done.
Qed.

(** The three loops of [validate_results] as tests on the folds. *)
Definition key_test (v0 i : CvResult.t) : bool :=
  negb (String.eqb (CvResult.key i) (CvResult.key v0)).

Definition presence_test (f : field) (v0 i : CvResult.t) : bool :=
  negb (eqb (CvResult.has_field f v0) (CvResult.has_field f i)).

Definition columns_test (X0 : DataFrame) (i : CvResult.t) : bool :=
  match CvResult.X i with
  | Some Xi => negb (bool_decide (sorted (columns Xi) = sorted (columns X0)))
  | None => false
  end.

Lemma key_test_iff (v : list CvResult.t) (v0 : CvResult.t) :
  head v = Some v0 -> existsb (key_test v0) v = true <-> key_differs v.
Proof.
  intros Hh. rewrite existsb_elem_of. unfold key_test, key_differs. split.
  - intros (r & Hr & Ht). exists v0, r. repeat split; try done.
    apply negb_true_iff, String.eqb_neq in Ht. done.
  - intros (r0 & r & Hh' & Hr & Hk). rewrite Hh in Hh'. injection Hh' as <-.
    exists r. split; [done|]. by apply negb_true_iff, String.eqb_neq.
Qed.

Lemma presence_test_iff (f : field) (v : list CvResult.t) (v0 : CvResult.t) :
  v0 ∈ v -> existsb (presence_test f v0) v = true <-> presence_mixed f v.
Proof.
  intros H0. rewrite existsb_elem_of. unfold presence_test, presence_mixed. split.
  - intros (r & Hr & Ht). apply negb_true_iff, eqb_false_iff in Ht.
    destruct (CvResult.has_field f v0) eqn:E0, (CvResult.has_field f r) eqn:Er;
      try congruence.
    + exists v0, r. done.
    + exists r, v0. done.
  - intros (r & r' & Hr & Hr' & Et & Ef).
    destruct (CvResult.has_field f v0) eqn:E0.
    + exists r'. split; [done|]. rewrite Ef. done.
    + exists r. split; [done|]. rewrite Et. done.
Qed.

Lemma columns_test_iff (v : list CvResult.t) (v0 : CvResult.t) (X0 : DataFrame) :
  v0 ∈ v -> CvResult.X v0 = Some X0 ->
  existsb (columns_test X0) v = true <-> columns_differ v.
Proof.
  intros H0 E0. rewrite existsb_elem_of. unfold columns_test, columns_differ. split.
  - intros (r & Hr & Ht). destruct (CvResult.X r) as [Xr|] eqn:Er; [|done].
    apply negb_true_iff, bool_decide_eq_false in Ht.
    exists r, v0, Xr, X0. repeat split; try done.
    intros P. by apply Ht, sorted_eq_iff.
  - intros (r & r' & x & x' & Hr & Hr' & Ex & Ex' & Hn).
    destruct (decide (sorted (columns x) = sorted (columns X0))) as [Es|Ns].
    + exists r'. split; [done|]. rewrite Ex'.
      apply negb_true_iff, bool_decide_eq_false. intros Es'. apply Hn.
      apply sorted_eq_iff. congruence.
    + exists r. split; [done|]. rewrite Ex.
      by apply negb_true_iff, bool_decide_eq_false.
Qed.

(** [validate_results] on two folds or more, loop by loop. *)
Lemma validate_results_unfold (v : list CvResult.t) (v0 : CvResult.t) :
  head v = Some v0 -> 2 <= length v ->
  CvResults.validate_results v =
    if existsb (key_test v0) v then Err KeyMismatch
    else if existsb (presence_test StandardDeviation v0) v
    then Err (FieldPresenceMismatch StandardDeviation)
    else if existsb (presence_test Labcodes v0) v
    then Err (FieldPresenceMismatch Labcodes)
    else if existsb (presence_test FieldX v0) v
    then Err (FieldPresenceMismatch FieldX)
    else match CvResult.X v0 with
         | Some X0 => if existsb (columns_test X0) v then Err ColumnMismatch else Ok v
         | None => Ok v
         end.
Proof.
  intros Hh Hlen. unfold CvResults.validate_results.
  destruct (Nat.leb_spec (length v) 1) as [?|_]; [lia|].
  assert (v !! 0 = Some v0) as -> by (by destruct v).
  assert (v0 ∈ v) as H0 by (destruct v; [done|]; injection Hh as ->; by left).
  unfold key_test, presence_test. simpl from_option. unfold mbind, result_bind.
  cbn [for_each]. unfold mbind, result_bind.
  rewrite !for_each_test.
  destruct (existsb _ v); [reflexivity|].
  destruct (existsb _ v); [reflexivity|].
  destruct (existsb _ v); [reflexivity|].
  destruct (existsb _ v) eqn:Ex; [reflexivity|].
  destruct (CvResult.X v0) as [X0|] eqn:E0; [|reflexivity].
  rewrite (for_each_ext _ (fun i => if columns_test X0 i then Err ColumnMismatch else Ok ())).
  - rewrite for_each_test. by destruct (existsb (columns_test X0) v).
  - intros i Hi. unfold columns_test.
    rewrite existsb_false_elem_of in Ex. specialize (Ex i Hi).
    apply negb_false_iff in Ex. apply eqb_prop in Ex.
    simpl in Ex. rewrite E0 in Ex.
    destruct (CvResult.X i) as [Xi|]; simpl; [done|].
    rewrite bool_decide_eq_true_2 in Ex by eauto.
    symmetry in Ex. apply bool_decide_eq_true in Ex. by destruct Ex.
Qed.

End CollectionConstruction.

Lemma new_collection_few (v : list CvResult.t) :
  too_few v -> CvResults.new v = Err EmptyCollection.
Proof.
  unfold too_few, CvResults.new, CvResults.validate_results. intros H.
  destruct (Nat.leb_spec (length v) 1) as [_|?]; [reflexivity|lia].
Qed.

Lemma head_of_two (v : list CvResult.t) :
  ~ too_few v -> exists v0, head v = Some v0 /\ v0 ∈ v /\ 2 <= length v.
Proof.
  unfold too_few. intros H. destruct v as [|v0 v]; simpl in *; [lia|].
  exists v0. repeat split; [by left|lia].
Qed.

(** The constructor of a collection takes exactly one of five ways. *)
Lemma collection_construction_classified (v : list CvResult.t) :
  (too_few v /\ CvResults.new v = Err EmptyCollection) \/
  (~ too_few v /\ key_differs v /\ CvResults.new v = Err KeyMismatch) \/
  (~ too_few v /\ ~ key_differs v /\
   exists f, f ∈ optional_fields /\ presence_mixed f v /\
     CvResults.new v = Err (FieldPresenceMismatch f)) \/
  (~ too_few v /\ ~ key_differs v /\
   (forall f, f ∈ optional_fields -> ~ presence_mixed f v) /\
   columns_differ v /\ CvResults.new v = Err ColumnMismatch) \/
  (~ too_few v /\ ~ key_differs v /\
   (forall f, f ∈ optional_fields -> ~ presence_mixed f v) /\
   ~ columns_differ v /\ CvResults.new v = Ok {| CvResults.results := v |}).
Proof.
  destruct (decide (length v < 2)) as [Hf|Hf].
  { left. split; [done|]. by apply new_collection_few. }
  right. change (~ too_few v) in Hf.
  destruct (head_of_two v Hf) as (v0 & Hh & H0 & Hlen).
  pose proof (validate_results_unfold v v0 Hh Hlen) as U.
  unfold CvResults.new. rewrite U. clear U.
  destruct (existsb (key_test v0) v) eqn:Ek.
  { apply (key_test_iff v v0 Hh) in Ek. left. done. }
  assert (~ key_differs v) as Hk by (rewrite <- (key_test_iff v v0 Hh); congruence).
  right.
  destruct (existsb (presence_test StandardDeviation v0) v) eqn:Es.
  { apply (presence_test_iff _ v v0 H0) in Es. left. repeat split; try done.
    exists StandardDeviation. repeat split; [by left|done]. }
  destruct (existsb (presence_test Labcodes v0) v) eqn:El.
  { apply (presence_test_iff _ v v0 H0) in El. left. repeat split; try done.
    exists Labcodes. repeat split; [by right; left|done]. }
  destruct (existsb (presence_test FieldX v0) v) eqn:Ex.
  { apply (presence_test_iff _ v v0 H0) in Ex. left. repeat split; try done.
    exists FieldX. repeat split; [by right; right; left|done]. }
  assert (forall f, f ∈ optional_fields -> ~ presence_mixed f v) as Hp.
  { intros f Hf'. unfold optional_fields in Hf'. apply list_elem_of_In in Hf'.
    simpl in Hf'. destruct Hf' as [ <- | [ <- | [ <- | [] ] ] ];
      rewrite <- (presence_test_iff _ v v0 H0); congruence. }
  right.
  destruct (CvResult.X v0) as [X0|] eqn:E0.
  - destruct (existsb (columns_test X0) v) eqn:Ec.
    + apply (columns_test_iff v v0 X0 H0 E0) in Ec. left. done.
    + assert (~ columns_differ v)
        by (rewrite <- (columns_test_iff v v0 X0 H0 E0); congruence).
      right. done.
  - assert (~ columns_differ v) as Hc.
    { intros (r & r' & x & x' & Hr & _ & Er & _).
      rewrite existsb_false_elem_of in Ex. specialize (Ex r Hr).
      unfold presence_test in Ex. apply negb_false_iff in Ex. apply eqb_prop in Ex.
      simpl in Ex. rewrite E0, Er in Ex.
      rewrite (bool_decide_eq_true_2 (is_Some (Some x))) in Ex by eauto.
      apply bool_decide_eq_true in Ex. by destruct Ex. }
    right. done.
Qed.

(** A collection that was constructed holds the folds it was given, and
    none of the conditions of failure holds of them. *)
Lemma new_collection_Ok (v : list CvResult.t) (c : CvResults.t) :
  CvResults.new v = Ok c ->
  CvResults.results c = v /\ ~ too_few v /\ ~ key_differs v /\
  (forall f, f ∈ optional_fields -> ~ presence_mixed f v) /\ ~ columns_differ v.
Proof.
  intros H.
  destruct (collection_construction_classified v)
    as [[_ E]|[(_ & _ & E)|[(_ & _ & f & _ & _ & E)|[(_ & _ & _ & _ & E)|(? & ? & ? & ? & E)]]]];
    rewrite E in H; try discriminate.
  injection H as <-. done.
Qed.

(** C5, as the code has it: the constructor of a collection checks, in this
    order, and fails with the first that applies: EmptyCollection when there
    are fewer than 2 folds; KeyMismatch when some fold's key differs from
    the first fold's; FieldPresenceMismatch, for one of standard_deviation,
    labcodes and X that some folds have and others lack; ColumnMismatch when
    two folds' X column labels are not the same up to order, a label that
    occurs several times counting as often as it occurs. When none applies
    it succeeds and holds the folds it was given. *)
Theorem collection_construction_cases (v : list CvResult.t) :
  (too_few v -> CvResults.new v = Err EmptyCollection) /\
  (~ too_few v -> key_differs v -> CvResults.new v = Err KeyMismatch) /\
  (~ too_few v -> ~ key_differs v ->
   (exists f, f ∈ optional_fields /\ presence_mixed f v) ->
   exists f, f ∈ optional_fields /\ presence_mixed f v /\
     CvResults.new v = Err (FieldPresenceMismatch f)) /\
  (~ too_few v -> ~ key_differs v ->
   (forall f, f ∈ optional_fields -> ~ presence_mixed f v) ->
   columns_differ v -> CvResults.new v = Err ColumnMismatch) /\
  (~ too_few v -> ~ key_differs v ->
   (forall f, f ∈ optional_fields -> ~ presence_mixed f v) ->
   ~ columns_differ v -> CvResults.new v = Ok {| CvResults.results := v |}).
Proof.
  destruct (collection_construction_classified v)
    as [[? E]|[(? & ? & E)|[(? & ? & f & ? & ? & E)|[(? & ? & Hp & ? & E)|(? & ? & Hp & ? & E)]]]];
    repeat split; try tauto.
  - intros _ _ _. by exists f.
  - intros _ _ Hp _. by destruct (Hp f).
  - intros _ _ Hp _. by destruct (Hp f).
  - intros _ _ (g & Hg & Hm). by destruct (Hp g Hg).
  - intros _ _ (g & Hg & Hm). by destruct (Hp g Hg).
Qed.

(** ** Concatenation of series and frames *)

Section Concatenation.

Lemma length_reindex {A} (l : list A) : length (reindex l) = length l.
Proof. unfold reindex. rewrite length_zip, length_seq. lia. Qed.

Lemma values_reindex (l : list value) : values (reindex l) = l.
Proof. unfold values, reindex. apply snd_zip. by rewrite length_seq. Qed.

Lemma index_reindex (l : list value) : index (reindex l) = seq 0 (length l).
Proof. unfold index, reindex. apply fst_zip. by rewrite length_seq. Qed.

Lemma snd_reindex {A} (l : list A) : (reindex l).*2 = l.
Proof. unfold reindex. apply snd_zip. by rewrite length_seq. Qed.

Lemma fst_reindex {A} (l : list A) : (reindex l).*1 = seq 0 (length l).
Proof. unfold reindex. apply fst_zip. by rewrite length_seq. Qed.

Lemma length_values (s : Series) : length (values s) = length s.
Proof. unfold values. apply length_fmap. Qed.

Lemma length_concat_with {A B} (f : A -> list B) (l : list A) :
  length (concat (f <$> l)) = sum_list_with (fun x => length (f x)) l.
Proof.
  induction l as [|x l IH]; [reflexivity|].
  rewrite fmap_cons. cbn [concat sum_list_with]. by rewrite length_app, IH.
Qed.

Lemma length_concat_series (ss : list Series) :
  length (concat_series ss) = sum_list_with length ss.
Proof.
  unfold concat_series. rewrite length_reindex, length_concat_with.
  induction ss as [|s ss IH]; [reflexivity|].
  cbn [sum_list_with]. by rewrite length_values, IH.
Qed.

Lemma is_numeric_concat_series (ss : list Series) :
  Forall (fun s => is_numeric s = true) ss -> is_numeric (concat_series ss) = true.
Proof.
  unfold concat_series, is_numeric. rewrite values_reindex.
  induction 1 as [|s ss Hs _ IH]; [reflexivity|].
  rewrite fmap_cons. cbn [concat]. rewrite forallb_app. by rewrite Hs, IH.
Qed.

(** Reading a projected row by a label of the target gives the cell that
    the row had under that label. *)
Lemma cell_project (target cols : list string) (row : list value) (c : string) :
  c ∈ target -> cell target (cell cols row <$> target) c = cell cols row c.
Proof.
  induction target as [|c' target IH]; simpl; [by intros ?%not_elem_of_nil|].
  intros Hc. destruct (decide (c' = c)) as [->|Hne]; [reflexivity|].
  apply IH. by apply elem_of_cons in Hc as [?|?].
Qed.

(** A row of the right width under labels without repetition is its own
    projection on these labels. *)
Lemma project_row_same (cols : list string) (row : list value) :
  NoDup cols -> length row = length cols -> cell cols row <$> cols = row.
Proof.
  revert row. induction cols as [|c cols IH]; intros [|x row] Hnd Hlen;
    simpl in *; try done.
  inversion_clear Hnd as [|? ? Hc Hnd']. rewrite decide_True by done. f_equal.
  transitivity (cell cols row <$> cols); [|apply IH; [done|lia]].
  apply list_fmap_ext. intros i c' Hi. rewrite decide_False; [done|].
  intros ->. apply Hc. by eapply list_elem_of_lookup_2.
Qed.

Lemma project_same (p : DataFrame) :
  NoDup (columns p) ->
  Forall (fun r => length r.2 = length (columns p)) (rows p) ->
  project (columns p) p = (rows p).*2.
Proof.
  intros Hnd Hrows. unfold project. apply list_eq_Forall2, Forall2_fmap, Forall_Forall2_diag.
  eapply Forall_impl; [exact Hrows|]. intros r Hr. simpl. by apply project_row_same.
Qed.

Lemma length_project (target : list string) (p : DataFrame) :
  length (project target p) = frame_len p.
Proof. unfold project, frame_len. apply length_fmap. Qed.

Lemma length_align (target : list string) (p : DataFrame) :
  length (align target p) = frame_len p.
Proof.
  unfold align. destruct (decide (columns p = target)); [|apply length_project].
  unfold frame_len. apply length_fmap.
Qed.

(** Re-indexing a frame that lists the target columns without repetition
    would not change its rows either. *)
Lemma align_project (p : DataFrame) :
  NoDup (columns p) ->
  Forall (fun r => length r.2 = length (columns p)) (rows p) ->
  align (columns p) p = project (columns p) p.
Proof.
  intros Hnd Hrows. unfold align. rewrite decide_True by done.
  symmetry. by apply project_same.
Qed.

Lemma filter_all {A} (P : A -> Prop) `{forall x, Decision (P x)} (l : list A) :
  (forall x, x ∈ l -> P x) -> filter P l = l.
Proof.
  induction l as [|x l IH]; intros Hl; [done|].
  rewrite filter_cons_True by (apply Hl; by left).
  rewrite IH; [done|]. intros y Hy. apply Hl. by right.
Qed.

Lemma filter_none {A} (P : A -> Prop) `{forall x, Decision (P x)} (l : list A) :
  (forall x, x ∈ l -> ~ P x) -> filter P l = [].
Proof.
  induction l as [|x l IH]; intros Hl; [done|].
  rewrite filter_cons_False by (apply Hl; by left).
  apply IH. intros y Hy. apply Hl. by right.
Qed.

Lemma union_columns_step (acc : list string) (ps : list DataFrame) :
  Forall (fun p => forall c, c ∈ columns p -> c ∈ acc) ps ->
  foldl (fun acc f => acc ++ filter (fun c => c ∉ acc) (columns f)) acc ps = acc.
Proof.
  induction 1 as [|p ps Hp _ IH]; [done|].
  cbn [foldl]. rewrite filter_none; [by rewrite app_nil_r|].
  intros c Hc Hn. by apply Hn, Hp.
Qed.

(** The columns of a concatenation are those of its first frame when every
    frame has the labels of the first up to order. *)
Lemma union_columns_same (p0 : DataFrame) (ps : list DataFrame) :
  Forall (fun p => columns p ≡ₚ columns p0) ps ->
  union_columns (p0 :: ps) = columns p0.
Proof.
  intros H. unfold union_columns. cbn [foldl].
  rewrite filter_all by (intros; apply not_elem_of_nil). rewrite app_nil_l.
  apply union_columns_step. eapply Forall_impl; [exact H|].
  intros p Hp c Hc. by rewrite <- Hp.
Qed.

End Concatenation.

(** ** Combining the folds *)

(** [s] holds the values of the parts, in order, under the index 0, 1, ... *)
Definition series_concatenation (parts : list Series) (s : Series) : Prop :=
  values s = concat (values <$> parts) /\ index s = seq 0 (length s).

(** [x] has the columns of the first part, and its rows are the rows of the
    parts in order, those of a part that lists the columns otherwise read
    by label, under the index 0, 1, ... *)
Definition frame_concatenation (parts : list DataFrame) (x : DataFrame) : Prop :=
  head (columns <$> parts) = Some (columns x) /\
  (rows x).*2 = concat (align (columns x) <$> parts) /\
  (rows x).*1 = seq 0 (frame_len x).

(** Every fold's X lists the columns as the first fold's X does or repeats
    no label: what [pd.concat] asks of frames whose labels agree up to
    order. *)
Definition frames_alignable (v : list CvResult.t) : Prop :=
  forall r0 x0 r x, head v = Some r0 -> CvResult.X r0 = Some x0 ->
    r ∈ v -> CvResult.X r = Some x ->
    columns x = columns x0 \/ NoDup (columns x).

(** An optional field of the combined fold: the concatenation of the folds'
    fields when every fold has the field, absent when no fold has it. *)
Definition optional_concatenation {A} (is_cat : list A -> A -> Prop)
    (get : CvResult.t -> option A) (v : list CvResult.t) (o : option A) : Prop :=
  (exists parts a, Forall2 (fun r p => get r = Some p) v parts /\ o = Some a /\ is_cat parts a) \/
  ((forall r, r ∈ v -> get r = None) /\ o = None).

(** The optional series of [_combine_folds] follow one pattern. *)
Definition combined {A} (get : CvResult.t -> option A) (cat : list A -> A)
    (v : list CvResult.t) (r0 : CvResult.t) : option A :=
  if get r0 is Some _ then Some (cat (omap get v)) else None.

Section Combination.

Lemma sum_list_with_fmap {A B} (f : B -> nat) (g : A -> B) (l : list A) :
  sum_list_with f (g <$> l) = sum_list_with (fun x => f (g x)) l.
Proof. induction l as [|x l IH]; [done|]. rewrite fmap_cons. simpl. by rewrite IH. Qed.

Lemma sum_list_with_ext_in {A} (f g : A -> nat) (l : list A) :
  (forall x, x ∈ l -> f x = g x) -> sum_list_with f l = sum_list_with g l.
Proof.
  induction l as [|x l IH]; intros H; [done|]. simpl.
  rewrite (H x) by left. rewrite IH; [done|]. intros y Hy. apply H. by right.
Qed.

Lemma omap_all_Some {A} (get : CvResult.t -> option A) (v : list CvResult.t)
    (parts : list A) :
  Forall2 (fun r p => get r = Some p) v parts -> omap get v = parts.
Proof.
  induction 1 as [|r p v parts E _ IH]; [done|].
  change (omap get (r :: v)) with
    (match get r with Some y => y :: omap get v | None => omap get v end).
  by rewrite E, IH.
Qed.

Lemma all_Some_parts {A} (get : CvResult.t -> option A) (v : list CvResult.t) :
  (forall r, r ∈ v -> is_Some (get r)) ->
  exists parts, Forall2 (fun r p => get r = Some p) v parts.
Proof.
  induction v as [|r v IH]; intros H; [by exists []|].
  destruct (H r) as [p Hp]; [by left|].
  destruct IH as [parts Hparts]; [intros; apply H; by right|].
  exists (p :: parts). by constructor.
Qed.

Lemma presence_uniform (f : field) (v : list CvResult.t) :
  ~ presence_mixed f v ->
  (forall r, r ∈ v -> CvResult.has_field f r = true) \/
  (forall r, r ∈ v -> CvResult.has_field f r = false).
Proof.
  intros Hm. destruct (existsb (CvResult.has_field f) v) eqn:Ee.
  - left. apply existsb_elem_of in Ee as (r0 & H0 & E0). intros r Hr.
    destruct (CvResult.has_field f r) eqn:Er; [done|].
    destruct Hm. by exists r0, r.
  - right. by apply existsb_false_elem_of.
Qed.

Lemma combined_cases {A} (get : CvResult.t -> option A) (cat : list A -> A)
    (v : list CvResult.t) (r0 : CvResult.t) :
  r0 ∈ v ->
  (forall r, r ∈ v -> is_Some (get r)) \/ (forall r, r ∈ v -> get r = None) ->
  (exists parts, Forall2 (fun r p => get r = Some p) v parts /\
     combined get cat v r0 = Some (cat parts)) \/
  ((forall r, r ∈ v -> get r = None) /\ combined get cat v r0 = None).
Proof.
  intros H0 [Hall|Hnone]; unfold combined.
  - left. destruct (all_Some_parts get v Hall) as [parts Hparts]. exists parts.
    split; [done|]. destruct (Hall r0 H0) as [p ->]. by rewrite (omap_all_Some _ _ _ Hparts).
  - right. split; [done|]. by rewrite (Hnone r0 H0).
Qed.

Lemma has_field_uniform {A} (f : field) (get : CvResult.t -> option A)
    (v : list CvResult.t) :
  (forall r, CvResult.has_field f r = bool_decide (is_Some (get r))) ->
  ~ presence_mixed f v ->
  (forall r, r ∈ v -> is_Some (get r)) \/ (forall r, r ∈ v -> get r = None).
Proof.
  intros Hf Hm. destruct (presence_uniform f v Hm) as [H|H]; [left|right]; intros r Hr;
    specialize (H r Hr); rewrite Hf in H.
  - by apply bool_decide_eq_true in H.
  - apply bool_decide_eq_false in H. destruct (get r); [|done]. destruct H. eauto.
Qed.

Lemma keys_agree (v : list CvResult.t) (r0 : CvResult.t) :
  head v = Some r0 -> ~ key_differs v ->
  forall r, r ∈ v -> CvResult.key r = CvResult.key r0.
Proof.
  intros Hh Hk r Hr. destruct (decide (CvResult.key r = CvResult.key r0)); [done|].
  destruct Hk. by exists r0, r.
Qed.

(** Frames whose labels agree up to order with those of the first. *)
Lemma columns_agree (v : list CvResult.t) (parts : list DataFrame) :
  ~ columns_differ v -> Forall2 (fun r p => CvResult.X r = Some p) v parts ->
  forall p p', p ∈ parts -> p' ∈ parts -> columns p ≡ₚ columns p'.
Proof.
  intros Hc H2 p p' Hp Hp'.
  destruct (list_elem_of_lookup_1 _ _ Hp) as [i Hi].
  destruct (list_elem_of_lookup_1 _ _ Hp') as [j Hj].
  destruct (Forall2_lookup_r _ _ _ _ _ H2 Hi) as (r & Hr & Er).
  destruct (Forall2_lookup_r _ _ _ _ _ H2 Hj) as (r' & Hr' & Er').
  destruct (decide (sorted (columns p) = sorted (columns p'))) as [E|N].
  - by apply sorted_eq_iff.
  - destruct Hc. exists r, r', p, p'. repeat split; try done.
    + by eapply list_elem_of_lookup_2.
    + by eapply list_elem_of_lookup_2.
    + intros P. by apply N, sorted_eq_iff.
Qed.

Lemma concat_frames_alignable (parts : list DataFrame) (p0 : DataFrame) :
  head parts = Some p0 ->
  (forall p, p ∈ parts -> columns p ≡ₚ columns p0) ->
  forallb (alignable (union_columns parts)) parts = true <->
  forall p, p ∈ parts -> columns p = columns p0 \/ NoDup (columns p).
Proof.
  intros Hh Hcols. destruct parts as [|p ps]; [done|]. injection Hh as ->.
  assert (union_columns (p0 :: ps) = columns p0) as ->.
  { apply union_columns_same, Forall_forall. intros p Hp. apply Hcols. by right. }
  rewrite forallb_forall. unfold alignable. split.
  - intros H p Hp. apply list_elem_of_In, H, orb_true_iff in Hp as [Hp|Hp];
      apply bool_decide_eq_true in Hp; auto.
  - intros H p Hp. apply list_elem_of_In, H in Hp as [Hp|Hp]; apply orb_true_iff;
      [left|right]; by apply bool_decide_eq_true.
Qed.

Lemma concat_frames_spec (parts : list DataFrame) (p0 : DataFrame) :
  head parts = Some p0 ->
  (forall p, p ∈ parts -> columns p ≡ₚ columns p0) ->
  ((forall p, p ∈ parts -> columns p = columns p0 \/ NoDup (columns p)) /\
   exists x, concat_frames parts = Ok x /\ frame_concatenation parts x /\
     frame_len x = sum_list_with frame_len parts) \/
  (~ (forall p, p ∈ parts -> columns p = columns p0 \/ NoDup (columns p)) /\
   concat_frames parts = Err "InvalidIndexError").
Proof.
  intros Hh Hcols. pose proof (concat_frames_alignable parts p0 Hh Hcols) as Hiff.
  unfold concat_frames. destruct (forallb _ parts) eqn:Ea.
  - left. split; [by apply Hiff|]. eexists. split; [reflexivity|].
    destruct parts as [|p ps]; [done|]. injection Hh as ->.
    assert (union_columns (p0 :: ps) = columns p0) as Hu.
    { apply union_columns_same, Forall_forall. intros p Hp. apply Hcols. by right. }
    unfold frame_concatenation, frame_len. cbn [columns rows].
    rewrite Hu, snd_reindex, fst_reindex, length_reindex. repeat split.
    rewrite length_concat_with. apply sum_list_with_ext_in.
    intros p _. apply length_align.
  - right. split; [|done]. intros H. apply Hiff in H. congruence.
Qed.

Lemma concat_series_spec (ss : list Series) :
  series_concatenation ss (concat_series ss).
Proof.
  unfold series_concatenation, concat_series.
  by rewrite values_reindex, index_reindex, length_reindex.
Qed.

Lemma parts_total {A} (get : CvResult.t -> option A) (len : A -> nat)
    (v : list CvResult.t) (parts : list A) :
  (forall r p, r ∈ v -> get r = Some p -> len p = CvResult.n_samples r) ->
  Forall2 (fun r p => get r = Some p) v parts ->
  sum_list_with len parts = sum_list_with CvResult.n_samples v.
Proof.
  intros H H2. induction H2 as [|r p v parts E _ IH]; [done|]. simpl.
  rewrite (H r p) by (done || by left). rewrite IH; [done|].
  intros r' p' Hr'. apply H. by right.
Qed.

Lemma parts_numeric (get : CvResult.t -> option Series)
    (v : list CvResult.t) (parts : list Series) :
  (forall r p, r ∈ v -> get r = Some p -> is_numeric p = true) ->
  Forall2 (fun r p => get r = Some p) v parts ->
  Forall (fun s => is_numeric s = true) parts.
Proof.
  intros H H2. induction H2 as [|r p v parts E _ IH]; constructor.
  - apply (H r); [by left|done].
  - apply IH. intros r' p' Hr'. apply H. by right.
Qed.

(** The arguments that [_combine_folds] passes to the constructor, [x]
    being the frame that pandas returned. *)
Definition combination (v : list CvResult.t) (r0 : CvResult.t) (x : option DataFrame)
    : CvResult.t :=
  {| CvResult.key := CvResult.key r0;
     CvResult.observed := concat_series (CvResult.observed <$> v);
     CvResult.predicted := concat_series (CvResult.predicted <$> v);
     CvResult.standard_deviation := combined CvResult.standard_deviation concat_series v r0;
     CvResult.labcodes := combined CvResult.labcodes concat_series v r0;
     CvResult.X := x |}.

(** The concatenation of the folds' X that [_combine_folds] asks pandas for. *)
Definition combined_X (v : list CvResult.t) (r0 : CvResult.t)
    : result error (option DataFrame) :=
  if CvResult.X r0 is Some _
  then x ← lift_lib (concat_frames (omap CvResult.X v)); Ok (Some x)
  else Ok None.

Lemma combine_folds_unfold (c : CvResults.t) (r0 : CvResult.t) :
  head (CvResults.results c) = Some r0 ->
  CvResults._combine_folds c
  = x ← combined_X (CvResults.results c) r0;
    CvResult.new (combination (CvResults.results c) r0 x).
Proof.
  intros Hh. unfold CvResults._combine_folds.
  assert (CvResults.results c !! 0 = Some r0) as -> by (by destruct (CvResults.results c)).
  reflexivity.
Qed.

Lemma length_combined_observed (v : list CvResult.t) :
  length (concat_series (CvResult.observed <$> v)) = sum_list_with CvResult.n_samples v.
Proof. by rewrite length_concat_series, sum_list_with_fmap. Qed.

Lemma length_combined_predicted (v : list CvResult.t) :
  Forall constructed v ->
  length (concat_series (CvResult.predicted <$> v)) = sum_list_with CvResult.n_samples v.
Proof.
  intros Hv. rewrite length_concat_series, sum_list_with_fmap.
  apply sum_list_with_ext_in. intros r Hr. apply constructed_predicted_len.
  by eapply Forall_forall in Hv.
Qed.

Lemma constructed_field_len (r : CvResult.t) (f : field) (n : nat) :
  constructed r -> field_len r f = Some n -> n = CvResult.n_samples r.
Proof. intros [Hs _]%constructed_iff. apply Hs. Qed.

Lemma Forall2_head {A B} (P : A -> B -> Prop) (l : list A) (k : list B) (x : A) :
  Forall2 P l k -> head l = Some x -> exists y, head k = Some y /\ P x y.
Proof. destruct 1; simpl; [done|]. intros [= <-]. eauto. Qed.

(** What pandas returns for the folds' X: their concatenation when the
    frames can be aligned, an exception otherwise. *)
Lemma combined_X_cases (v : list CvResult.t) (r0 : CvResult.t) :
  head v = Some r0 -> Forall constructed v ->
  ~ presence_mixed FieldX v -> ~ columns_differ v ->
  (frames_alignable v /\
   exists x, combined_X v r0 = Ok x /\
     optional_concatenation frame_concatenation CvResult.X v x /\
     forall x', x = Some x' -> frame_len x' = sum_list_with CvResult.n_samples v) \/
  (~ frames_alignable v /\ combined_X v r0 = Err (PythonError "InvalidIndexError")).
Proof.
  intros Hh Hv Hp Hc.
  assert (r0 ∈ v) as H0 by (destruct v; [done|]; injection Hh as ->; by left).
  assert (forall r, r ∈ v -> constructed r) as Hcon by (by apply Forall_forall).
  unfold combined_X.
  destruct (has_field_uniform FieldX CvResult.X v (fun _ => eq_refl) Hp) as [Hall|Hnone].
  - destruct (all_Some_parts CvResult.X v Hall) as [parts H2].
    destruct (Forall2_head _ _ _ _ H2 Hh) as (p0 & Hp0 & E0).
    rewrite E0, (omap_all_Some _ _ _ H2).
    assert (forall p, p ∈ parts -> exists r, r ∈ v /\ CvResult.X r = Some p) as Hback.
    { intros p Hin. destruct (list_elem_of_lookup_1 _ _ Hin) as [i Hi].
      destruct (Forall2_lookup_r _ _ _ _ _ H2 Hi) as (r & Hr & Er).
      exists r. split; [by eapply list_elem_of_lookup_2|done]. }
    assert (forall r p, r ∈ v -> CvResult.X r = Some p -> p ∈ parts) as Hforth.
    { intros r p Hin Er. destruct (list_elem_of_lookup_1 _ _ Hin) as [i Hi].
      destruct (Forall2_lookup_l _ _ _ _ _ H2 Hi) as (p' & Hp' & Er').
      rewrite Er in Er'. injection Er' as <-. by eapply list_elem_of_lookup_2. }
    assert (p0 ∈ parts) as Hin0 by (by eapply Hforth).
    destruct (concat_frames_spec parts p0 Hp0) as [[Hal (x & -> & Hcat & Hlen)]|[Hnal ->]].
    + intros p Hin. by eapply columns_agree.
    + left. split.
      * intros r0' x0 r x' Hh' E0' Hr Er. rewrite Hh in Hh'. injection Hh' as <-.
        rewrite E0 in E0'. injection E0' as <-. apply Hal. by eapply Hforth.
      * exists (Some x). split; [done|]. split.
        -- left. by exists parts, x.
        -- intros x' [= <-]. rewrite Hlen.
           apply parts_total with (get := CvResult.X); [|done].
           intros r p Hr Er. apply (constructed_field_len r FieldX); [auto|].
           simpl. by rewrite Er.
    + right. split; [|done]. intros Hal. apply Hnal. intros p Hin.
      destruct (Hback p Hin) as (r & Hr & Er). by eapply Hal.
  - left. split.
    + intros r0' x0 r x' Hh' E0' _ _. rewrite Hh in Hh'. injection Hh' as <-.
      by rewrite (Hnone r0 H0) in E0'.
    + rewrite (Hnone r0 H0). exists None. split; [done|]. split; [by right|done].
Qed.

(** A fold is the combination of the folds [v]. *)
Definition is_combination (v : list CvResult.t) (cv : CvResult.t) : Prop :=
  (forall r, r ∈ v -> CvResult.key r = CvResult.key cv) /\
  series_concatenation (CvResult.observed <$> v) (CvResult.observed cv) /\
  series_concatenation (CvResult.predicted <$> v) (CvResult.predicted cv) /\
  optional_concatenation series_concatenation CvResult.standard_deviation v
    (CvResult.standard_deviation cv) /\
  optional_concatenation series_concatenation CvResult.labcodes v (CvResult.labcodes cv) /\
  optional_concatenation frame_concatenation CvResult.X v (CvResult.X cv) /\
  CvResult.n_samples cv = sum_list_with CvResult.n_samples v.

(** The combination of the folds of a valid collection is accepted by the
    constructor, and its fields are the concatenations of the folds'. *)
Lemma combination_spec (v : list CvResult.t) (r0 : CvResult.t) (x : option DataFrame) :
  head v = Some r0 -> Forall constructed v -> ~ key_differs v ->
  (forall f, f ∈ optional_fields -> ~ presence_mixed f v) ->
  optional_concatenation frame_concatenation CvResult.X v x ->
  (forall x', x = Some x' -> frame_len x' = sum_list_with CvResult.n_samples v) ->
  CvResult.new (combination v r0 x) = Ok (combination v r0 x) /\
  is_combination v (combination v r0 x).
Proof.
  intros Hh Hv Hk Hp HX Hlen.
  assert (r0 ∈ v) as H0 by (destruct v; [done|]; injection Hh as ->; by left).
  assert (forall r, r ∈ v -> constructed r) as Hcon by (by apply Forall_forall).
  pose proof (combined_cases CvResult.standard_deviation concat_series v r0 H0
    (has_field_uniform StandardDeviation _ v (fun _ => eq_refl)
       (Hp StandardDeviation ltac:(by left)))) as Hsd.
  pose proof (combined_cases CvResult.labcodes concat_series v r0 H0
    (has_field_uniform Labcodes _ v (fun _ => eq_refl)
       (Hp Labcodes ltac:(by right; left)))) as Hlc.
  assert (forall get f parts,
            (forall r p, get r = Some p -> field_len r f = Some (length p)) ->
            Forall2 (fun r p => get r = Some p) v parts ->
            length (concat_series parts) = sum_list_with CvResult.n_samples v) as Hseries.
  { intros get f parts Hf H2. rewrite length_concat_series.
    apply parts_total with (get := get); [|done].
    intros r p Hr Er. apply (constructed_field_len r f); auto. }
  assert (forall r p, CvResult.standard_deviation r = Some p ->
            field_len r StandardDeviation = Some (length p)) as Fsd
    by (intros r p E; simpl; by rewrite E).
  assert (forall r p, CvResult.labcodes r = Some p ->
            field_len r Labcodes = Some (length p)) as Flc
    by (intros r p E; simpl; by rewrite E).
  split; [|split; [|split; [|split; [|split; [|split; [|split]]]]]].
  - apply new_Ok_iff. split; [done|]. split.
    + intros f n. unfold CvResult.n_samples. destruct f; simpl.
      * by intros [= <-].
      * intros [= <-]. by rewrite length_combined_predicted, length_combined_observed.
      * destruct Hsd as [(parts & H2 & ->)|[_ ->]]; simpl; [|done].
        intros [= <-]. rewrite length_combined_observed.
        exact (Hseries _ StandardDeviation parts Fsd H2).
      * destruct Hlc as [(parts & H2 & ->)|[_ ->]]; simpl; [|done].
        intros [= <-]. rewrite length_combined_observed.
        exact (Hseries _ Labcodes parts Flc H2).
      * destruct x as [x'|]; simpl; [|done].
        intros [= <-]. rewrite length_combined_observed. by apply Hlen.
    + unfold all_numeric. simpl. split; [|split].
      * apply is_numeric_concat_series, Forall_fmap, Forall_forall. intros r Hr.
        by destruct (proj1 (constructed_iff r) (Hcon r Hr)) as [_ [? _]].
      * apply is_numeric_concat_series, Forall_fmap, Forall_forall. intros r Hr.
        by destruct (proj1 (constructed_iff r) (Hcon r Hr)) as [_ (_ & ? & _)].
      * destruct Hsd as [(parts & H2 & ->)|[_ ->]]; [|done]. intros sd [= <-].
        apply is_numeric_concat_series. eapply parts_numeric; [|exact H2].
        intros r p Hr Er.
        destruct (proj1 (constructed_iff r) (Hcon r Hr)) as [_ (_ & _ & Hn)]. eauto.
  - simpl. by apply keys_agree.
  - apply concat_series_spec.
  - apply concat_series_spec.
  - simpl. destruct Hsd as [(parts & H2 & ->)|[Hn ->]]; [left|by right].
    exists parts, (concat_series parts). split; [done|]. split; [done|].
    apply concat_series_spec.
  - simpl. destruct Hlc as [(parts & H2 & ->)|[Hn ->]]; [left|by right].
    exists parts, (concat_series parts). split; [done|]. split; [done|].
    apply concat_series_spec.
  - exact HX.
  - apply length_combined_observed.
Qed.

End Combination.

(** ** Properties of a collection *)

Lemma valid_collection_inv (c : CvResults.t) :
  valid_collection c ->
  exists r0, head (CvResults.results c) = Some r0 /\
    2 <= length (CvResults.results c) /\
    Forall constructed (CvResults.results c) /\
    ~ key_differs (CvResults.results c) /\
    (forall f, f ∈ optional_fields -> ~ presence_mixed f (CvResults.results c)) /\
    ~ columns_differ (CvResults.results c).
Proof.
  intros [Hv [folds Hnew]]. apply new_collection_Ok in Hnew as (<- & Hf & Hk & Hp & Hc).
  destruct (head_of_two _ Hf) as (r0 & Hh & _ & Hlen). exists r0. done.
Qed.

(** On a valid collection [_combine_folds] returns the combination of the
    folds when their X can be aligned, and fails in pandas otherwise. *)
Lemma combine_folds_cases (c : CvResults.t) :
  valid_collection c ->
  (frames_alignable (CvResults.results c) /\
   exists cv, CvResults._combine_folds c = Ok cv /\
     CvResults.key c = Ok (CvResult.key cv) /\
     is_combination (CvResults.results c) cv) \/
  (~ frames_alignable (CvResults.results c) /\
   CvResults._combine_folds c = Err (PythonError "InvalidIndexError")).
Proof.
  intros (r0 & Hh & _ & Hv & Hk & Hp & Hc)%valid_collection_inv.
  rewrite (combine_folds_unfold c r0 Hh).
  destruct (combined_X_cases _ r0 Hh Hv (Hp FieldX ltac:(by right; right; left)) Hc)
    as [[Hal (x & -> & HX & Hlen)]|[Hnal ->]]; [left|by right].
  split; [done|].
  destruct (combination_spec _ r0 x Hh Hv Hk Hp HX Hlen) as [Hnew Hcomb].
  exists (combination (CvResults.results c) r0 x). simpl. split; [done|]. split; [|done].
  unfold CvResults.key.
  assert (CvResults.results c !! 0 = Some r0) as ->
    by (by destruct (CvResults.results c)).
  reflexivity.
Qed.

(** What CombineFolds does on every valid collection. When every fold's X,
    when present, lists its columns exactly as the first fold's X does or
    repeats no column label, CombineFolds succeeds. The fold it returns has
    the key that the folds share; its observed and its predicted hold the
    values of the folds' series in the order of the folds, each fold's in
    their own order, under the index 0, 1, ... without gap; its
    standard_deviation and its labcodes are such concatenations when the
    folds have the field, and its X has the columns of the first fold's and
    the folds' rows in order under the same index; a field that no fold has
    is absent. Its n_samples is the sum of the folds'. On any other valid
    collection CombineFolds fails where pandas aligns the frames. *)
Theorem combine_folds_concatenates (c : CvResults.t) :
  valid_collection c ->
  (frames_alignable (CvResults.results c) ->
   exists cv, CvResults._combine_folds c = Ok cv /\
     CvResults.key c = Ok (CvResult.key cv) /\
     (forall r, r ∈ CvResults.results c -> CvResult.key r = CvResult.key cv) /\
     series_concatenation (CvResult.observed <$> CvResults.results c) (CvResult.observed cv) /\
     series_concatenation (CvResult.predicted <$> CvResults.results c) (CvResult.predicted cv) /\
     optional_concatenation series_concatenation CvResult.standard_deviation
       (CvResults.results c) (CvResult.standard_deviation cv) /\
     optional_concatenation series_concatenation CvResult.labcodes
       (CvResults.results c) (CvResult.labcodes cv) /\
     optional_concatenation frame_concatenation CvResult.X
       (CvResults.results c) (CvResult.X cv) /\
     CvResult.n_samples cv = sum_list_with CvResult.n_samples (CvResults.results c)) /\
  (~ frames_alignable (CvResults.results c) ->
   CvResults._combine_folds c = Err (PythonError "InvalidIndexError")).
Proof.
  intros Hc.
  destruct (combine_folds_cases c Hc) as [[Hal (cv & E & Hkey & Hcomb)]|[Hnal E]].
  - split; [|done]. intros _. exists cv. split; [done|]. split; [done|]. exact Hcomb.
  - split; [done|]. by intros _.
Qed.

(** The folds of the tests: [n_samples] observed values 10, 11, ..., each
    predicted one higher, the labcodes and a two-column X on demand. *)
Definition generate_cvresult (key : string) (n_samples : nat)
    (include_labcodes include_X : bool) : CvResult.t :=
  let sample i := Num (inject_Z (10 + Z.of_nat i)) in
  let observed := reindex (sample <$> seq 0 n_samples) in
  let predicted := reindex ((fun i => sample (S i)) <$> seq 0 n_samples) in
  let labcodes :=
    if include_labcodes
    then Some (reindex ((fun i => Str (pretty i)) <$> seq 0 n_samples))
    else None in
  let X :=
    if include_X
    then Some {| columns := ["a"; "b"];
                 rows := reindex ((fun i => [sample i; sample (2 * i)]) <$> seq 0 n_samples) |}
    else None in
  fold_of key observed predicted None labcodes X.

(** A fold of one sample whose X has the given column labels. *)
Definition fold_with_columns (cols : list string) : CvResult.t :=
  fold_of "a" (series_of [1#1]) (series_of [2#1]) None None
    (Some {| columns := cols; rows := [(0, (fun _ => Num (1#1)) <$> cols)] |}).

(** Folds of sizes 5 and 6, both with labcodes and X. *)
Definition folds_5_6 : CvResults.t :=
  {| CvResults.results := [generate_cvresult "a" 5 true true;
                           generate_cvresult "a" 6 true true] |}.

Lemma folds_5_6_valid : valid_collection folds_5_6.
Proof.
  split.
  - constructor; [|constructor; [|constructor]].
    + exists (generate_cvresult "a" 5 true true). vm_compute. reflexivity.
    + exists (generate_cvresult "a" 6 true true). vm_compute. reflexivity.
  - exists (CvResults.results folds_5_6). vm_compute. reflexivity.
Defined.

Lemma folds_5_6_alignable : frames_alignable (CvResults.results folds_5_6).
Proof.
  intros r0 x0 r x [= <-] [= <-] Hr Er. left.
  apply list_elem_of_In in Hr. simpl in Hr.
  destruct Hr as [<-|[<-|[]]]; by injection Er as <-.
Defined.

Lemma combine_folds_concatenates_witness :
  exists cv, CvResults._combine_folds folds_5_6 = Ok cv /\
    CvResult.key cv = "a" /\
    CvResult.n_samples cv = 11 /\
    length (CvResult.predicted cv) = 11 /\
    index (CvResult.observed cv) = seq 0 11 /\
    (exists lc, CvResult.labcodes cv = Some lc /\ length lc = 11) /\
    (exists x, CvResult.X cv = Some x /\ frame_len x = 11 /\ columns x = ["a"; "b"]).
Proof.
  destruct (combine_folds_concatenates folds_5_6 folds_5_6_valid) as [Hok _].
  destruct (Hok folds_5_6_alignable)
    as (cv & E & _ & Hkey & [_ Hio] & _ & _ & _ & _ & Hn).
  exists cv. split; [exact E|].
  split; [symmetry; apply (Hkey (generate_cvresult "a" 5 true true)); by left|].
  split; [exact Hn|].
  assert (length (CvResult.observed cv) = 11) as Hlen by exact Hn.
  split; [|split; [by rewrite Hio, Hlen|]];
    vm_compute in E; injection E as <-; [reflexivity|].
  split; eexists; (split; [reflexivity|]); [reflexivity|split; reflexivity].
Defined.

(** C4, at the failing input: two folds whose X list the labels a, a, b in
    different orders. Each fold is constructed and the constructor of the
    collection accepts them (its column check compares the sorted labels,
    which agree), so the collection is valid and the claim has CombineFolds
    return the concatenation; the code raises instead, inside pd.concat:
    pandas cannot align a frame that repeats a label with a frame that
    lists the labels otherwise. *)
Lemma reordered_repeated_labels_not_combined :
  constructed (fold_with_columns ["a"; "a"; "b"]) /\
  constructed (fold_with_columns ["a"; "b"; "a"]) /\
  CvResults.new [fold_with_columns ["a"; "a"; "b"]; fold_with_columns ["a"; "b"; "a"]]
    = Ok {| CvResults.results :=
              [fold_with_columns ["a"; "a"; "b"]; fold_with_columns ["a"; "b"; "a"]] |} /\
  CvResults._combine_folds
    {| CvResults.results :=
         [fold_with_columns ["a"; "a"; "b"]; fold_with_columns ["a"; "b"; "a"]] |}
    = Err (PythonError "InvalidIndexError").
Proof.
  split; [exists (fold_with_columns ["a"; "a"; "b"]); vm_compute; reflexivity|].
  split; [exists (fold_with_columns ["a"; "b"; "a"]); vm_compute; reflexivity|].
  split; vm_compute; reflexivity.
Qed.

(** C8: is_loo holds of a collection exactly when every fold has exactly
    one sample. *)
Theorem is_loo_iff (c : CvResults.t) :
  CvResults.is_loo c = true <->
  forall r, r ∈ CvResults.results c -> CvResult.n_samples r = 1.
Proof.
  unfold CvResults.is_loo. rewrite forallb_forall. split.
  - intros H r Hr. apply Nat.eqb_eq, H. by apply list_elem_of_In.
  - intros H r Hr. apply Nat.eqb_eq, H. by apply list_elem_of_In.
Qed.

(** The three collections of the tests. *)
Example is_loo_five_single :
  CvResults.is_loo {| CvResults.results := replicate 5 (generate_cvresult "a" 1 false false) |}
  = true.
Proof. reflexivity. Qed.

Example is_loo_five_of_five :
  CvResults.is_loo {| CvResults.results := replicate 5 (generate_cvresult "a" 5 false false) |}
  = false.
Proof. reflexivity. Qed.

Example is_loo_mixed :
  CvResults.is_loo {| CvResults.results := [generate_cvresult "a" 5 false false;
                                            generate_cvresult "a" 1 false false] |}
  = false.
Proof. reflexivity. Qed.

Section CollectionMetric.
Context {L : StatLib}.

Lemma sum_at_least_length {A} (f : A -> nat) (l : list A) :
  (forall x, x ∈ l -> 1 <= f x) -> length l <= sum_list_with f l.
Proof.
  induction l as [|x l IH]; intros H; simpl; [lia|].
  assert (1 <= f x) by (apply H; by left).
  assert (length l <= sum_list_with f l) by (apply IH; intros; apply H; by right). lia.
Qed.

Lemma bind_lift_not_insufficient {A B} (r : result string A) (k : A -> B) :
  (lift_lib r ≫= fun x => Ok (k x)) <> Err InsufficientSamples.
Proof. destruct r; discriminate. Qed.

(** The metric per fold raises exactly the exception of the first fold, in
    the order of the folds, whose GetMetric raises. *)
Lemma per_fold_metric_Err (c : CvResults.t) (m : RegressionMetricsEnum) (b : bool)
    (e : error) :
  CvResults.is_loo c || b = false ->
  CvResults.get_metric c m b = Err e <->
  exists pre r post, CvResults.results c = pre ++ r :: post /\
    Forall (fun r' => exists x, CvResult.get_metric r' m = Ok x) pre /\
    CvResult.get_metric r m = Err e.
Proof.
  intros Hb. unfold CvResults.get_metric. rewrite Hb. split.
  - destruct (comprehension _ _) as [xs|e'] eqn:E; simpl; [discriminate|].
    intros [= <-]. by apply comprehension_Err_first in E.
  - intros (pre & r & post & -> & Hpre & Er).
    by rewrite (comprehension_first_Err _ pre r post e Hpre Er).
Qed.

(** The metric per fold returns no series for a collection with a fold of
    one sample. *)
Lemma per_fold_metric_Ok (c : CvResults.t) (m : RegressionMetricsEnum) (b : bool)
    (s : MetricSeries float) :
  CvResults.is_loo c || b = false ->
  CvResults.get_metric c m b = Ok s ->
  forall r, r ∈ CvResults.results c -> CvResult.n_samples r <> 1.
Proof.
  intros Hb. unfold CvResults.get_metric. rewrite Hb.
  destruct (comprehension _ _) as [xs|e] eqn:E; simpl; [|discriminate].
  intros _ r Hr Hn. apply comprehension_Ok in E.
  apply list_elem_of_lookup in Hr as [k Hk].
  destruct (Forall2_lookup_l _ _ _ _ _ E Hk) as (x & _ & Ex).
  by rewrite (single_sample_fold_fails r m Hn) in Ex.
Qed.

(** C2, as the code has it: on a valid collection, when the collection is
    leave-one-out or combineFolds is true and CombineFolds returns a fold
    (it does when the folds' X can be aligned), GetMetric returns the
    series of one value, named after the metric, of that fold's GetMetric
    when this returns a value, and raises its exception otherwise; a
    leave-one-out collection gives the same with combineFolds false as with
    true. Otherwise GetMetric returns the series, named after the metric,
    of the folds' GetMetric values, one per fold in the order of the folds,
    exactly when every fold's GetMetric returns a value; it raises an
    exception exactly when some fold's GetMetric raises, namely the
    exception of the first such fold in the order of the folds; so it
    never returns when a fold has exactly one sample. *)
Theorem get_metric_of_collection (c : CvResults.t) (m : RegressionMetricsEnum)
    (combine_folds : bool) :
  valid_collection c ->
  (CvResults.is_loo c || combine_folds = true ->
   (forall cv, CvResults._combine_folds c = Ok cv ->
      (forall x, CvResult.get_metric cv m = Ok x ->
         CvResults.get_metric c m combine_folds
           = Ok {| name := metric_name m; data := [x] |}) /\
      (forall e, CvResult.get_metric cv m = Err e ->
         CvResults.get_metric c m combine_folds = Err e)) /\
   (frames_alignable (CvResults.results c) ->
      exists cv, CvResults._combine_folds c = Ok cv)) /\
  (CvResults.is_loo c = true ->
   CvResults.get_metric c m false = CvResults.get_metric c m true) /\
  (CvResults.is_loo c || combine_folds = false ->
   (forall xs, Forall2 (fun r x => CvResult.get_metric r m = Ok x) (CvResults.results c) xs <->
      CvResults.get_metric c m combine_folds
        = Ok {| name := metric_name m; data := xs |}) /\
   (forall s, CvResults.get_metric c m combine_folds = Ok s ->
      name s = metric_name m /\ length (data s) = length (CvResults.results c)) /\
   (forall e, CvResults.get_metric c m combine_folds = Err e <->
      exists pre r post, CvResults.results c = pre ++ r :: post /\
        Forall (fun r' => exists x, CvResult.get_metric r' m = Ok x) pre /\
        CvResult.get_metric r m = Err e) /\
   (forall r, r ∈ CvResults.results c -> CvResult.n_samples r = 1 ->
      exists e, CvResults.get_metric c m combine_folds = Err e)).
Proof.
  intros Hc. split; [|split].
  - unfold CvResults.get_metric. intros ->. split.
    + intros cv ->. simpl. split; [intros x ->|intros e ->]; reflexivity.
    + intros Hal. destruct (combine_folds_cases c Hc) as [[_ (cv & E & _)]|[Hnal _]];
        [by exists cv|done].
  - unfold CvResults.get_metric. intros ->. reflexivity.
  - intros Hb. split; [|split; [|split]].
    + unfold CvResults.get_metric. rewrite Hb.
      intros xs. rewrite <- comprehension_Ok.
      destruct (comprehension _ _) as [ys|e]; simpl; split; congruence.
    + unfold CvResults.get_metric. rewrite Hb.
      intros s. destruct (comprehension _ _) as [ys|e] eqn:E; simpl; [|discriminate].
      intros [= <-]. simpl. split; [done|].
      apply comprehension_Ok in E. symmetry. by eapply Forall2_length.
    + intros e. by apply per_fold_metric_Err.
    + intros r Hr Hn. destruct (CvResults.get_metric c m combine_folds) as [s|e] eqn:E.
      * by destruct (per_fold_metric_Ok c m combine_folds s Hb E r Hr).
      * by exists e.
Qed.

(** C10: on a valid collection whose folds all have a sample, a fold that
    CombineFolds returns has two samples or more, so GetMetric with
    combineFolds true does not fail with InsufficientSamples; nor does any
    call of GetMetric on a leave-one-out collection, which combines the
    folds whatever the flag. *)
Theorem combined_metric_has_enough_samples (c : CvResults.t) (m : RegressionMetricsEnum) :
  valid_collection c ->
  (forall r, r ∈ CvResults.results c -> 1 <= CvResult.n_samples r) ->
  (forall cv, CvResults._combine_folds c = Ok cv -> 2 <= CvResult.n_samples cv) /\
  CvResults.get_metric c m true <> Err InsufficientSamples /\
  (CvResults.is_loo c = true ->
   forall combine_folds, CvResults.get_metric c m combine_folds <> Err InsufficientSamples).
Proof.
  intros Hc Hone.
  destruct (valid_collection_inv c Hc) as (_ & _ & Hlen & _).
  pose proof (sum_at_least_length CvResult.n_samples _ Hone) as Hsum.
  assert (forall cv, CvResults._combine_folds c = Ok cv -> 2 <= CvResult.n_samples cv) as H2.
  { intros cv E.
    destruct (combine_folds_cases c Hc) as [[_ (cv' & E' & _ & Hcomb)]|[_ E']];
      rewrite E' in E; [|discriminate].
    injection E as <-. destruct Hcomb as (_ & _ & _ & _ & _ & _ & ->). lia. }
  assert (forall b, CvResults.is_loo c || b = true ->
            CvResults.get_metric c m b <> Err InsufficientSamples) as Hne.
  { intros b Hb. unfold CvResults.get_metric. rewrite Hb.
    destruct (CvResults._combine_folds c) as [cv|e] eqn:E; simpl.
    - specialize (H2 cv eq_refl). rewrite get_metric_unguarded by lia.
      apply bind_lift_not_insufficient.
    - destruct (combine_folds_cases c Hc) as [[_ (cv' & E' & _)]|[_ E']];
        rewrite E' in E; [discriminate|]. by injection E as <-. }
  split; [done|]. split.
  - apply Hne. apply orb_true_r.
  - intros Hloo b. apply Hne. by rewrite Hloo.
Qed.

End CollectionMetric.

(** ** The rank-discrimination test *)

(** The steps of the FISHER metric in the words of the specification. *)

(** The index set of the top [k] values of an array: the last [k] entries
    of its ascending argsort. *)
Definition top_indices `{StatLib} (k : nat) (a : list value) : gset nat :=
  list_to_set (drop (length a - k) (argsort a)).

(** tp, fp = n_half - tp, fn = n_half - tp, tn = (N - n_half) - (n_half - tp) *)
Definition contingency_table (N n_half tp : Z) : table :=
  ((tp, n_half - tp), (n_half - tp, (N - n_half) - (n_half - tp)))%Z.

Definition fisher_steps `{StatLib} (observed predicted : list value) : result string float :=
  let N := length observed in
  let n_half := N `div` 2 in
  let tp := size (top_indices n_half predicted ∩ top_indices n_half observed) in
  '(_, p) ← fisher_exact
              (contingency_table (Z.of_nat N) (Z.of_nat n_half) (Z.of_nat tp)) Greater;
  Ok p.

Section Fisher.
Context {L : StatLib}.

(** A negative slice start takes the tail of that length. *)
Lemma slice_from_tail {A} (k : nat) (a : list A) :
  0 < k -> slice_from (- Z.of_nat k) a = drop (length a - k) a.
Proof.
  intros Hk. unfold slice_from.
  destruct (Z.ltb_spec (- Z.of_nat k) 0) as [_|?]; [|lia]. f_equal. lia.
Qed.

Lemma fisher_as_steps (o p : list value) (sd : option Series) :
  1 < length o -> length p = length o ->
  _fisher_exact_test_p o p sd = fisher_steps o p.
Proof.
  intros Hn Hp. unfold _fisher_exact_test_p, fisher_steps, top_indices, contingency_table.
  assert (0 < length o `div` 2) as Hh.
  { apply Nat.div_str_pos. lia. }
  replace (Z.of_nat (length o) `div` 2)%Z with (Z.of_nat (length o `div` 2))
    by (by rewrite Nat2Z.inj_div).
  rewrite !slice_from_tail by done.
  rewrite !(Permutation_length (argsort_perm _)), !length_seq, Hp. reflexivity.
Qed.

Lemma argsort_NoDup (a : list value) : NoDup (argsort a).
Proof. rewrite argsort_perm. apply NoDup_seq. Qed.

Lemma length_argsort (a : list value) : length (argsort a) = length a.
Proof. by rewrite (Permutation_length (argsort_perm a)), length_seq. Qed.

Lemma size_top_indices (k : nat) (a : list value) :
  k <= length a -> size (top_indices k a) = k.
Proof.
  intros Hk. unfold top_indices. rewrite size_list_to_set.
  - rewrite length_drop, length_argsort. lia.
  - eapply sublist_NoDup; [apply argsort_NoDup|apply sublist_drop].
Qed.

Lemma top_indices_in_range (k : nat) (a : list value) (i : nat) :
  i ∈ top_indices k a -> i < length a.
Proof.
  unfold top_indices. rewrite elem_of_list_to_set. intros Hi.
  assert (i ∈ argsort a) as Hi'.
  { rewrite <- (take_drop (length a - k) (argsort a)). apply elem_of_app. by right. }
  rewrite argsort_perm in Hi'. apply elem_of_seq in Hi'. lia.
Qed.

(** No value outside the top indices exceeds a value at a top index. *)
Lemma top_indices_top (k : nat) (a : list value) (i j : nat) :
  i ∈ top_indices k a -> j < length a -> j ∉ top_indices k a ->
  value_le (nth j a NaN) (nth i a NaN).
Proof.
  unfold top_indices. rewrite !elem_of_list_to_set. intros Hi Hj Hnj.
  assert (j ∈ argsort a) as Hj'.
  { rewrite argsort_perm. apply elem_of_seq. lia. }
  rewrite <- (take_drop (length a - k) (argsort a)) in Hj'.
  apply elem_of_app in Hj' as [Hj'|Hj']; [|done].
  pose proof (argsort_sorted a) as Hs.
  rewrite <- (take_drop (length a - k) (argsort a)) in Hs.
  exact (StronglySorted_app_1_elem_of _ _ _ _ _ Hs Hj' Hi).
Qed.

(** C3: on a fold with N > 1 samples the FISHER metric takes these steps:
    n_half = N // 2; the index sets of the top n_half observed values and of
    the top n_half predicted values, each of n_half indices below N, no
    value outside such a set exceeding a value inside it; tp the size of
    their intersection, at most n_half; the table tp, fp = n_half - tp,
    fn = n_half - tp, tn = (N - n_half) - (n_half - tp), whose entries are
    not negative; and the value is the p-value of the exact test on this
    table with the alternative "greater". *)
Theorem fisher_metric_steps (cv : CvResult.t) :
  constructed cv -> CvResult.n_samples cv > 1 ->
  CvResult.get_metric cv FISHER
    = lift_lib (fisher_steps (values (CvResult.observed cv)) (values (CvResult.predicted cv))) /\
  (forall a, a = values (CvResult.observed cv) \/ a = values (CvResult.predicted cv) ->
     size (top_indices (CvResult.n_samples cv `div` 2) a) = CvResult.n_samples cv `div` 2 /\
     (forall i, i ∈ top_indices (CvResult.n_samples cv `div` 2) a ->
        i < CvResult.n_samples cv /\
        forall j, j < CvResult.n_samples cv ->
          j ∉ top_indices (CvResult.n_samples cv `div` 2) a ->
          value_le (nth j a NaN) (nth i a NaN))) /\
  (forall tp,
     tp = size (top_indices (CvResult.n_samples cv `div` 2) (values (CvResult.predicted cv))
                ∩ top_indices (CvResult.n_samples cv `div` 2) (values (CvResult.observed cv))) ->
     tp <= CvResult.n_samples cv `div` 2 /\
     forall t, t = contingency_table (Z.of_nat (CvResult.n_samples cv))
                     (Z.of_nat (CvResult.n_samples cv `div` 2)) (Z.of_nat tp) ->
       (0 <= t.1.1 /\ 0 <= t.1.2 /\ 0 <= t.2.1 /\ 0 <= t.2.2)%Z /\
       (t.1.1 + t.1.2 + t.2.1 + t.2.2)%Z = Z.of_nat (CvResult.n_samples cv)).
Proof.
  intros Hc Hn. pose proof (constructed_predicted_len cv Hc) as Hp.
  unfold CvResult.n_samples in *.
  assert (length (values (CvResult.observed cv)) = length (CvResult.observed cv)) as Ho
    by apply length_values.
  assert (length (values (CvResult.predicted cv)) = length (CvResult.observed cv)) as Hp'
    by (by rewrite length_values).
  assert (length (CvResult.observed cv) `div` 2 <= length (CvResult.observed cv)) as Hle
    by (apply Nat.Div0.div_le_upper_bound; lia).
  assert (2 * (length (CvResult.observed cv) `div` 2) <= length (CvResult.observed cv)) as Hle2
    by (apply Nat.Div0.mul_div_le).
  split; [|split].
  - rewrite get_metric_unguarded by (unfold CvResult.n_samples; lia).
    f_equal. simpl. apply fisher_as_steps; lia.
  - intros a Ha.
    assert (length a = length (CvResult.observed cv)) as Hla by (by destruct Ha as [->| ->]).
    split; [apply size_top_indices; lia|].
    intros i Hi. split.
    + rewrite <- Hla. by eapply top_indices_in_range.
    + intros j Hj Hnj. eapply top_indices_top; [done|lia|done].
  - intros tp ->.
    assert (size (top_indices (length (CvResult.observed cv) `div` 2)
                    (values (CvResult.predicted cv))
                  ∩ top_indices (length (CvResult.observed cv) `div` 2)
                      (values (CvResult.observed cv)))
            <= length (CvResult.observed cv) `div` 2) as Htp.
    { etrans; [apply subseteq_size, intersection_subseteq_l|].
      rewrite size_top_indices; lia. }
    split; [exact Htp|]. intros t ->. unfold contingency_table. cbn [fst snd].
    revert Htp Hle2. generalize (size (top_indices (length (CvResult.observed cv) `div` 2)
                    (values (CvResult.predicted cv))
                  ∩ top_indices (length (CvResult.observed cv) `div` 2)
                      (values (CvResult.observed cv)))).
    generalize (length (CvResult.observed cv) `div` 2).
    generalize (length (CvResult.observed cv)). intros N h tp ? ?. lia.
Qed.

End Fisher.

(** ** The theorems at the inputs of the tests *)

Lemma fold_plain_constructed : constructed fold_plain.
Proof. exists fold_plain. reflexivity. Defined.

Lemma fisher_metric_steps_witness :
  CvResult.get_metric (H := Reference.lib) fold_plain FISHER
    = Ok (Reference.p_value ((1, 0), (0, 2))%Z Greater) /\
  size (top_indices (H := Reference.lib) 1 (values (CvResult.observed fold_plain))) = 1.
Proof.
  destruct (fisher_metric_steps (L := Reference.lib) fold_plain fold_plain_constructed)
    as (E & Htop & _).
  - unfold CvResult.n_samples. simpl. lia.
  - split.
    + rewrite E. vm_compute. reflexivity.
    + exact (proj1 (Htop _ (or_introl eq_refl))).
Defined.

Lemma get_metric_of_collection_witness :
  (exists cv x, CvResults._combine_folds folds_5_6 = Ok cv /\
     CvResult.get_metric (H := Reference.lib) cv MAE = Ok x /\
     CvResults.get_metric (H := Reference.lib) folds_5_6 MAE true
       = Ok {| name := "MAE"; data := [x] |}) /\
  (exists s, CvResults.get_metric (H := Reference.lib) folds_5_6 MAE false = Ok s /\
     name s = "MAE" /\ length (data s) = 2).
Proof.
  destruct (get_metric_of_collection (L := Reference.lib) folds_5_6 MAE true folds_5_6_valid)
    as (Hcomb & _ & _).
  destruct (Hcomb eq_refl) as (Hcv & Hex).
  destruct (Hex folds_5_6_alignable) as [cv Ecv].
  destruct (Hcv cv Ecv) as [Hok _].
  destruct (get_metric_of_collection (L := Reference.lib) folds_5_6 MAE false folds_5_6_valid)
    as (_ & _ & Hfolds).
  destruct (Hfolds eq_refl) as (_ & Hs & _). split.
  - exists cv. vm_compute in Ecv. injection Ecv as <-. eexists.
    split; [reflexivity|]. split; [reflexivity|]. apply Hok. reflexivity.
  - eexists. split; [reflexivity|]. apply Hs. reflexivity.
Defined.

(** Eleven samples in folds of five, five and one. *)
Definition folds_5_5_1 : CvResults.t :=
  {| CvResults.results := [generate_cvresult "a" 5 false false;
                           generate_cvresult "a" 5 false false;
                           generate_cvresult "a" 1 false false] |}.

Lemma folds_5_5_1_valid : valid_collection folds_5_5_1.
Proof.
  split.
  - repeat constructor.
    + exists (generate_cvresult "a" 5 false false). vm_compute. reflexivity.
    + exists (generate_cvresult "a" 5 false false). vm_compute. reflexivity.
    + exists (generate_cvresult "a" 1 false false). vm_compute. reflexivity.
  - exists (CvResults.results folds_5_5_1). vm_compute. reflexivity.
Defined.

(** Against C2 as stated: the folds of five, five and one sample form a
    valid collection that is not leave-one-out, and GetMetric with
    combineFolds false returns no sequence for it, for any library and any
    metric: the fold of one sample has no metric. With the reference
    library it raises InsufficientSamples. *)
Lemma mixed_sizes_return_no_series :
  valid_collection folds_5_5_1 /\
  CvResults.is_loo folds_5_5_1 || false = false /\
  (forall (L : StatLib) (m : RegressionMetricsEnum) (s : MetricSeries float),
     CvResults.get_metric folds_5_5_1 m false <> Ok s) /\
  CvResults.get_metric (H := Reference.lib) folds_5_5_1 MAE false = Err InsufficientSamples.
Proof.
  split; [exact folds_5_5_1_valid|]. split; [reflexivity|]. split; [|reflexivity].
  intros L m s E.
  apply (per_fold_metric_Ok folds_5_5_1 m false s eq_refl E
           (generate_cvresult "a" 1 false false)); [|reflexivity].
  by right; right; left.
Qed.

(** A leave-one-out run of five folds. *)
Definition loo_folds : CvResults.t :=
  {| CvResults.results := replicate 5 (generate_cvresult "a" 1 false false) |}.

Lemma loo_folds_valid : valid_collection loo_folds.
Proof.
  split.
  - apply Forall_replicate. exists (generate_cvresult "a" 1 false false). reflexivity.
  - exists (CvResults.results loo_folds). reflexivity.
Defined.

Lemma combined_metric_has_enough_samples_witness :
  CvResults.is_loo loo_folds = true /\
  (forall cv, CvResults._combine_folds loo_folds = Ok cv -> 2 <= CvResult.n_samples cv) /\
  CvResults.get_metric (H := Reference.lib) loo_folds PEARSON true <> Err InsufficientSamples /\
  CvResults.get_metric (H := Reference.lib) loo_folds PEARSON false <> Err InsufficientSamples.
Proof.
  split; [reflexivity|].
  destruct (combined_metric_has_enough_samples (L := Reference.lib) loo_folds PEARSON
              loo_folds_valid) as (Hcv & Htrue & Hloo).
  - intros r Hr. apply elem_of_replicate in Hr as [-> _].
    unfold CvResult.n_samples. simpl. lia.
  - split; [exact Hcv|]. split; [exact Htrue|]. apply Hloo. reflexivity.
Defined.

(** The collections that the tests expect the constructor to refuse. *)
Example no_fold_refused : CvResults.new [] = Err EmptyCollection.
Proof. reflexivity. Qed.

Example one_fold_refused :
  CvResults.new [generate_cvresult "a" 10 false false] = Err EmptyCollection.
Proof. reflexivity. Qed.

Example other_key_refused :
  CvResults.new [generate_cvresult "a" 10 false false; generate_cvresult "b" 10 false false]
  = Err KeyMismatch.
Proof. reflexivity. Qed.

Example missing_standard_deviation_refused :
  CvResults.new [fold_plain; fold_with_sd] = Err (FieldPresenceMismatch StandardDeviation).
Proof. reflexivity. Qed.

Example missing_labcodes_refused :
  CvResults.new [generate_cvresult "a" 10 false false; generate_cvresult "a" 10 true false]
  = Err (FieldPresenceMismatch Labcodes).
Proof. reflexivity. Qed.

Example missing_X_refused :
  CvResults.new [generate_cvresult "a" 10 false false; generate_cvresult "a" 10 false true]
  = Err (FieldPresenceMismatch FieldX).
Proof. reflexivity. Qed.

Example other_columns_refused :
  CvResults.new [fold_with_columns ["a"; "b"]; fold_with_columns ["a"; "b"; "c"]]
  = Err ColumnMismatch.
Proof. vm_compute. reflexivity. Qed.

Example permuted_columns_accepted :
  CvResults.new [fold_with_columns ["a"; "b"]; fold_with_columns ["b"; "a"]]
  = Ok {| CvResults.results := [fold_with_columns ["a"; "b"]; fold_with_columns ["b"; "a"]] |}.
Proof. vm_compute. reflexivity. Qed.

(** Against C5 as stated: two folds whose X have the same set of column
    labels, a and b, one of them with a twice and the other with b twice.
    There are two folds, of one key, none has an optional field that the
    other lacks, and no two sets of column labels differ; still the
    constructor fails, with ColumnMismatch. *)
Lemma repeated_labels_refused :
  constructed (fold_with_columns ["a"; "a"; "b"]) /\
  constructed (fold_with_columns ["a"; "b"; "b"]) /\
  (list_to_set ["a"; "a"; "b"] : gset string) = list_to_set ["a"; "b"; "b"] /\
  ~ too_few [fold_with_columns ["a"; "a"; "b"]; fold_with_columns ["a"; "b"; "b"]] /\
  ~ key_differs [fold_with_columns ["a"; "a"; "b"]; fold_with_columns ["a"; "b"; "b"]] /\
  (forall f, ~ presence_mixed f
     [fold_with_columns ["a"; "a"; "b"]; fold_with_columns ["a"; "b"; "b"]]) /\
  ~ column_sets_differ
      [fold_with_columns ["a"; "a"; "b"]; fold_with_columns ["a"; "b"; "b"]] /\
  CvResults.new [fold_with_columns ["a"; "a"; "b"]; fold_with_columns ["a"; "b"; "b"]]
  = Err ColumnMismatch.
Proof.
  assert ((list_to_set ["a"; "a"; "b"] : gset string) = list_to_set ["a"; "b"; "b"]) as Hset
    by set_solver.
  split; [exists (fold_with_columns ["a"; "a"; "b"]); vm_compute; reflexivity|].
  split; [exists (fold_with_columns ["a"; "b"; "b"]); vm_compute; reflexivity|].
  split; [exact Hset|].
  split; [unfold too_few; simpl; lia|].
  split.
  { rewrite <- (key_test_iff _ (fold_with_columns ["a"; "a"; "b"])) by reflexivity.
    vm_compute. discriminate. }
  split.
  { intros f. rewrite <- (presence_test_iff f _ (fold_with_columns ["a"; "a"; "b"])) by (by left).
    destruct f; vm_compute; discriminate. }
  split; [|vm_compute; reflexivity].
  intros (r & r' & x & x' & Hr & Hr' & Ex & Ex' & Hne). apply Hne.
  apply list_elem_of_In in Hr, Hr'. simpl in Hr, Hr'.
  destruct Hr as [<-|[<-|[]]], Hr' as [<-|[<-|[]]];
    injection Ex as <-; injection Ex' as <-; simpl; by rewrite ?Hset.
Qed.

(** * Further properties of the module *)

(** ** The validators of a fold *)

(** The numeric fields that are not numeric, in the order of the fields. *)
Definition non_numeric_fields (a : CvResult.t) : list field :=
  (if is_numeric (CvResult.observed a) then [] else [Observed])
  ++ (if is_numeric (CvResult.predicted a) then [] else [Predicted])
  ++ match CvResult.standard_deviation a with
     | Some sd => if is_numeric sd then [] else [StandardDeviation]
     | None => []
     end.

(** The place of a field in the order in which [validate_shapes] compares
    the fields with [predicted]. *)
Definition check_order (f : field) : nat :=
  match f with
  | Predicted | Observed => 0
  | StandardDeviation => 1
  | Labcodes => 2
  | FieldX => 3
  end.

Section FoldValidators.

(** Once the shapes agree the constructor reports every numeric field that
    is not numeric, all in one exception and in the order observed,
    predicted, standard_deviation; labcodes and X are never examined, so
    labels that are not numbers do not count. *)
Theorem not_numeric_fields_reported (a : CvResult.t) :
  shapes_agree a -> non_numeric_fields a <> [] ->
  CvResult.new a = Err (NotNumeric (non_numeric_fields a)) /\
  (forall f, f ∈ non_numeric_fields a -> f = Observed \/ f = Predicted \/ f = StandardDeviation).
Proof.
  intros Hs Hne. split.
  - unfold CvResult.new. destruct (validate_shapes_spec a) as [[_ ->]|[Hn _]]; [|tauto].
    simpl. revert Hne. unfold non_numeric_fields, CvResult.validate_observed,
      CvResult.validate_predicted, CvResult.validate_standard_deviation.
    destruct (is_numeric (CvResult.observed a)), (is_numeric (CvResult.predicted a)),
      (CvResult.standard_deviation a) as [sd|]; try destruct (is_numeric sd);
      simpl; intros Hne; done.
  - unfold non_numeric_fields. intros f.
    destruct (is_numeric (CvResult.observed a)), (is_numeric (CvResult.predicted a)),
      (CvResult.standard_deviation a) as [sd|]; try destruct (is_numeric sd);
      simpl; intros Hf%list_elem_of_In; simpl in Hf; intuition.
Qed.

(** A fold with labels where observed values should be. *)
Definition labelled_fold : CvResult.t :=
  fold_of "a" [(0, Str "b"); (1, Str "a")] (series_of [1#1; 2#1])
    (Some [(0, Str "a"); (1, Num (1#1))]) (Some [(0, Str "5"); (1, Str "6")]) None.

Lemma not_numeric_fields_reported_witness :
  CvResult.new labelled_fold = Err (NotNumeric [Observed; StandardDeviation]) /\
  (forall f, f ∈ [Observed; StandardDeviation] ->
     f = Observed \/ f = Predicted \/ f = StandardDeviation).
Proof.
  apply (not_numeric_fields_reported labelled_fold).
  - intros [] n; simpl; intros [= <-]; reflexivity.
  - simpl. discriminate.
Defined.

(** A shape exception always pairs predicted, first, with the first field in
    the order observed, standard_deviation, labcodes, X whose length
    differs from predicted's: every field before it in this order, when
    present, is as long as predicted. *)
Theorem first_shape_mismatch_reported (a : CvResult.t) (f1 f2 : field) (n1 n2 : nat) :
  CvResult.new a = Err (ShapeMismatch f1 f2 n1 n2) ->
  f1 = Predicted /\ n1 = length (CvResult.predicted a) /\
  f2 <> Predicted /\ field_len a f2 = Some n2 /\ n1 <> n2 /\
  (forall g m, check_order g < check_order f2 -> field_len a g = Some m -> m = n1).
Proof.
  destruct a as [k o p sd lc x]. unfold CvResult.new, CvResult.validate_shapes,
    CvResult.check_len. simpl.
  destruct (Nat.eqb_spec (length p) (length o)) as [Eo|No]; simpl.
  2:{ intros [= <- <- <- <-]. repeat split; try done. intros g m Hg. simpl in Hg. lia. }
  destruct sd as [sd|]; simpl.
  1: destruct (Nat.eqb_spec (length p) (length sd)) as [Es|Ns]; simpl.
  2:{ intros [= <- <- <- <-]. repeat split; try done.
      intros [] m; simpl; intros Hg; try lia; intros [= <-]; congruence. }
  all: destruct lc as [lc|]; simpl.
  all: try (destruct (Nat.eqb_spec (length p) (length lc)) as [El|Nl]; simpl).
  all: try (destruct x as [x|]; simpl).
  all: try (destruct (Nat.eqb_spec (length p) (frame_len x)) as [Ex|Nx]; simpl).
  all: try (intros [= <- <- <- <-]; repeat split; try done;
            intros [] m; simpl; intros Hg; try lia; intros [= <-]; congruence).
  all: unfold CvResult.validate_observed, CvResult.validate_predicted,
         CvResult.validate_standard_deviation;
       destruct (is_numeric o), (is_numeric p); try destruct (is_numeric sd);
       simpl; discriminate.
Qed.

(** Arguments whose labcodes and X both differ in length from predicted. *)
Definition twice_misshapen_fold : CvResult.t :=
  fold_of "a" (series_of [1#1; 2#1]) (series_of [1#1; 2#1]) (Some (series_of [1#1; 2#1]))
    (Some [(0, Str "5")]) (Some {| columns := ["a"]; rows := [] |}).

Lemma first_shape_mismatch_reported_witness :
  CvResult.new twice_misshapen_fold = Err (ShapeMismatch Predicted Labcodes 2 1) /\
  field_len twice_misshapen_fold Labcodes = Some 1 /\
  (forall g m, check_order g < check_order Labcodes ->
     field_len twice_misshapen_fold g = Some m -> m = 2).
Proof.
  split; [reflexivity|].
  destruct (first_shape_mismatch_reported twice_misshapen_fold Predicted Labcodes 2 1 eq_refl)
    as (_ & _ & _ & Hlen & _ & Hbefore).
  split; [exact Hlen|exact Hbefore].
Defined.

(** What a constructed fold keeps: it is the constructor's argument, every
    present field has n_samples entries, observed, predicted and a present
    standard_deviation are numeric, and the constructor accepts it again
    unchanged. *)
Theorem constructed_fold_invariants (a cv : CvResult.t) :
  CvResult.new a = Ok cv ->
  cv = a /\
  (forall f n, field_len cv f = Some n -> n = CvResult.n_samples cv) /\
  is_numeric (CvResult.observed cv) = true /\
  is_numeric (CvResult.predicted cv) = true /\
  (forall sd, CvResult.standard_deviation cv = Some sd -> is_numeric sd = true) /\
  CvResult.new cv = Ok cv.
Proof.
  intros H. pose proof H as (-> & Hs & Ho & Hp & Hsd)%new_Ok_iff. done.
Qed.

Lemma constructed_fold_invariants_witness :
  fold_with_sd = fold_with_sd /\
  (forall f n, field_len fold_with_sd f = Some n -> n = CvResult.n_samples fold_with_sd) /\
  is_numeric (CvResult.observed fold_with_sd) = true /\
  is_numeric (CvResult.predicted fold_with_sd) = true /\
  (forall sd, CvResult.standard_deviation fold_with_sd = Some sd -> is_numeric sd = true) /\
  CvResult.new fold_with_sd = Ok fold_with_sd.
Proof. apply (constructed_fold_invariants fold_with_sd fold_with_sd). reflexivity. Defined.

End FoldValidators.

(** ** The contingency table at the small sizes *)

(** The table that [_fisher_exact_test_p] builds before the test. *)
Definition fisher_table `{StatLib} (observed predicted : list value) : table :=
  let n_half := (Z.of_nat (length observed) `div` 2)%Z in
  let top_obs := slice_from (- n_half) (argsort observed) in
  let top_est := slice_from (- n_half) (argsort predicted) in
  let tp := Z.of_nat (size ((list_to_set top_est : gset nat) ∩ list_to_set top_obs)) in
  let fp := (n_half - tp)%Z in
  let fn := (n_half - tp)%Z in
  let tn := ((Z.of_nat (length observed) - n_half) - (n_half - tp))%Z in
  ((tp, fp), (fn, tn)).

Section FisherTable.
Context {L : StatLib}.

Lemma argsort_singleton (a : list value) : length a = 1 -> argsort a = [0].
Proof.
  intros Ha. apply Permutation_singleton_r. rewrite argsort_perm, Ha. reflexivity.
Qed.

Lemma argsort_empty (a : list value) : length a = 0 -> argsort a = [].
Proof.
  intros Ha. apply Permutation_nil_r. rewrite argsort_perm, Ha. reflexivity.
Qed.

(** The function tests the table it builds; on arrays of one length the
    table is all zero for no sample, has the entries 1, -1, -1, 2 for one
    sample (the slice [[-0:]] is the whole array), and has no negative entry
    for two samples or more: one sample is the only size at which the test
    is handed a negative count. *)
Theorem fisher_table_by_size (o p : list value) (sd : option Series) :
  length p = length o ->
  _fisher_exact_test_p o p sd = ('(_, pv) ← fisher_exact (fisher_table o p) Greater; Ok pv) /\
  (length o = 0 -> fisher_table o p = ((0, 0), (0, 0))%Z) /\
  (length o = 1 -> fisher_table o p = ((1, -1), (-1, 2))%Z) /\
  (1 < length o ->
   (0 <= (fisher_table o p).1.1 /\ 0 <= (fisher_table o p).1.2 /\
    0 <= (fisher_table o p).2.1 /\ 0 <= (fisher_table o p).2.2)%Z).
Proof.
  intros Hp. split; [reflexivity|]. unfold fisher_table. split; [|split].
  - intros Ho. rewrite !argsort_empty by lia. rewrite Ho. reflexivity.
  - intros Ho. rewrite !argsort_singleton by lia. rewrite Ho. reflexivity.
  - intros Ho.
    assert (0 < length o `div` 2) as Hh by (apply Nat.div_str_pos; lia).
    replace (Z.of_nat (length o) `div` 2)%Z with (Z.of_nat (length o `div` 2))
      by (by rewrite Nat2Z.inj_div).
    rewrite !slice_from_tail by done. rewrite !length_argsort, Hp.
    fold (top_indices (length o `div` 2) o).
    replace (drop (length o - length o `div` 2) (argsort p))
      with (drop (length p - length o `div` 2) (argsort p)) by (by rewrite Hp).
    fold (top_indices (length o `div` 2) p). cbn [fst snd].
    assert (length o `div` 2 <= length o) as Hle
      by (apply Nat.Div0.div_le_upper_bound; lia).
    assert (2 * (length o `div` 2) <= length o) as Hle2 by apply Nat.Div0.mul_div_le.
    assert (size (top_indices (length o `div` 2) p ∩ top_indices (length o `div` 2) o)
            <= length o `div` 2) as Htp.
    { etrans; [apply subseteq_size, intersection_subseteq_l|].
      rewrite size_top_indices; lia. }
    revert Htp Hle2.
    generalize (size (top_indices (length o `div` 2) p ∩ top_indices (length o `div` 2) o)).
    generalize (length o `div` 2). generalize (length o). intros N h tp ? ?. lia.
Qed.

End FisherTable.

Lemma fisher_table_by_size_witness :
  fisher_table (H := Reference.lib) [Num (3#1)] [Num (5#1)] = ((1, -1), (-1, 2))%Z /\
  _fisher_exact_test_p (L := Reference.lib) [Num (3#1)] [Num (5#1)] None
    = Ok (Reference.p_value ((1, -1), (-1, 2))%Z Greater).
Proof.
  destruct (fisher_table_by_size (L := Reference.lib) [Num (3#1)] [Num (5#1)] None eq_refl)
    as (E & _ & H1 & _).
  split; [exact (H1 eq_refl)|]. rewrite E, (H1 eq_refl). reflexivity.
Defined.

(** ** A constructed collection *)

Section CollectionAccess.

(** What a valid collection keeps, for any two of its folds: one key, the
    same optional fields present, and X columns that agree up to order; and
    it has two folds or more. *)
Theorem collection_invariants (c : CvResults.t) (r r' : CvResult.t) :
  valid_collection c -> r ∈ CvResults.results c -> r' ∈ CvResults.results c ->
  2 <= CvResults.__len__ c /\
  CvResult.key r = CvResult.key r' /\
  (forall f, f ∈ optional_fields -> CvResult.has_field f r = CvResult.has_field f r') /\
  (forall x x', CvResult.X r = Some x -> CvResult.X r' = Some x' -> columns x ≡ₚ columns x').
Proof.
  intros (r0 & Hh & Hlen & _ & Hk & Hp & Hc)%valid_collection_inv Hr Hr'.
  split; [exact Hlen|]. split; [|split].
  - rewrite (keys_agree _ r0 Hh Hk r Hr). symmetry.
    exact (keys_agree (CvResults.results c) r0 Hh Hk r' Hr').
  - intros f Hf. destruct (presence_uniform f (CvResults.results c) (Hp f Hf)) as [H|H];
      by rewrite (H r Hr), (H r' Hr').
  - intros x x' Ex Ex'.
    destruct (decide (sorted (columns x) = sorted (columns x'))) as [E|N];
      [by apply sorted_eq_iff|].
    destruct Hc. exists r, r', x, x'. repeat split; try done.
    intros P. by apply N, sorted_eq_iff.
Qed.

Lemma collection_invariants_witness :
  2 <= CvResults.__len__ folds_5_6 /\
  CvResult.key (generate_cvresult "a" 5 true true)
    = CvResult.key (generate_cvresult "a" 6 true true) /\
  (forall f, f ∈ optional_fields ->
     CvResult.has_field f (generate_cvresult "a" 5 true true)
     = CvResult.has_field f (generate_cvresult "a" 6 true true)) /\
  (forall x x', CvResult.X (generate_cvresult "a" 5 true true) = Some x ->
     CvResult.X (generate_cvresult "a" 6 true true) = Some x' -> columns x ≡ₚ columns x').
Proof.
  apply (collection_invariants folds_5_6 _ _ folds_5_6_valid).
  - by left.
  - by right; left.
Defined.

(** Indexing a valid collection: an index from -len to len - 1 gives a fold
    of the collection, a constructed fold with the collection's key, a
    negative index counting from the end; any other index raises
    IndexError. *)
Theorem collection_indexing (c : CvResults.t) (i : Z) :
  valid_collection c ->
  ((- Z.of_nat (CvResults.__len__ c) <= i < Z.of_nat (CvResults.__len__ c))%Z ->
   exists r, CvResults.__getitem__ c i = Ok r /\
     r ∈ CvResults.__iter__ c /\ constructed r /\
     CvResults.key c = Ok (CvResult.key r) /\
     ((i < 0)%Z ->
      CvResults.__getitem__ c i
      = CvResults.__getitem__ c (i + Z.of_nat (CvResults.__len__ c)))) /\
  (~ (- Z.of_nat (CvResults.__len__ c) <= i < Z.of_nat (CvResults.__len__ c))%Z ->
   CvResults.__getitem__ c i = Err (PythonError "IndexError")).
Proof.
  intros (r0 & Hh & Hlen & Hv & Hk & _)%valid_collection_inv.
  unfold CvResults.__getitem__, CvResults.__len__, CvResults.__iter__, CvResults.key.
  assert (CvResults.results c !! 0 = Some r0) as -> by (by destruct (CvResults.results c)).
  set (n := length (CvResults.results c)) in *.
  split.
  - intros Hi.
    set (j := if (i <? 0)%Z then (i + Z.of_nat n)%Z else i).
    assert (0 <= j < Z.of_nat n)%Z as Hj
      by (unfold j; destruct (Z.ltb_spec i 0); lia).
    assert ((0 <=? j)%Z && (j <? Z.of_nat n)%Z = true) as ->
      by (apply andb_true_iff; split; [apply Z.leb_le|apply Z.ltb_lt]; lia).
    destruct (lookup_lt_is_Some_2 (CvResults.results c) (Z.to_nat j)) as [r Er];
      [fold n; lia|].
    exists r. rewrite Er. simpl. split; [done|].
    assert (r ∈ CvResults.results c) as Hr by (by eapply list_elem_of_lookup_2).
    split; [done|]. split; [by eapply Forall_forall in Hv|]. split.
    + by rewrite (keys_agree _ r0 Hh Hk r Hr).
    + intros Hneg.
      assert ((i + Z.of_nat n <? 0)%Z = false) as -> by (apply Z.ltb_ge; lia).
      assert (j = (i + Z.of_nat n)%Z) as <-
        by (unfold j; destruct (Z.ltb_spec i 0); lia).
      assert ((0 <=? j)%Z && (j <? Z.of_nat n)%Z = true) as ->
        by (apply andb_true_iff; split; [apply Z.leb_le|apply Z.ltb_lt]; lia).
      by rewrite Er.
  - intros Hi.
    assert ((0 <=? (if (i <? 0)%Z then (i + Z.of_nat n)%Z else i))%Z
            && ((if (i <? 0)%Z then (i + Z.of_nat n)%Z else i) <? Z.of_nat n)%Z = false)
      as ->; [|done].
    apply andb_false_iff. destruct (Z.ltb_spec i 0).
    + left. apply Z.leb_gt. lia.
    + right. apply Z.ltb_ge. lia.
Qed.

Lemma collection_indexing_witness :
  CvResults.__getitem__ folds_5_6 (-1) = Ok (generate_cvresult "a" 6 true true) /\
  CvResults.__getitem__ folds_5_6 (-1) = CvResults.__getitem__ folds_5_6 1 /\
  CvResults.__getitem__ folds_5_6 2 = Err (PythonError "IndexError").
Proof.
  destruct (collection_indexing folds_5_6 (-1) folds_5_6_valid) as [Hin _].
  destruct (collection_indexing folds_5_6 2 folds_5_6_valid) as [_ Hout].
  destruct Hin as (r & E & _ & _ & _ & Hneg); [unfold CvResults.__len__; simpl; lia|].
  split; [reflexivity|]. split.
  - apply Hneg. lia.
  - apply Hout. unfold CvResults.__len__. simpl. lia.
Defined.

End CollectionAccess.

(** ** The order of the folds *)

Section FoldOrder.

(** Two folds with different keys. *)
Definition keys_vary (v : list CvResult.t) : Prop :=
  exists r r', r ∈ v /\ r' ∈ v /\ CvResult.key r <> CvResult.key r'.

Lemma key_differs_iff (v : list CvResult.t) : key_differs v <-> keys_vary v.
Proof.
  split.
  - intros (r0 & r & Hh & Hr & Hk). exists r, r0. repeat split; try done.
    destruct v; [done|]. injection Hh as ->. by left.
  - intros (r & r' & Hr & Hr' & Hk). destruct v as [|r0 v]; [by apply not_elem_of_nil in Hr|].
    destruct (decide (CvResult.key r = CvResult.key r0)) as [E|N].
    + exists r0, r'. repeat split; try done. congruence.
    + exists r0, r. done.
Qed.

(** The constructor of a collection takes exactly one of seven ways. *)
Lemma collection_outcome (v : list CvResult.t) :
  (too_few v /\ CvResults.new v = Err EmptyCollection) \/
  (~ too_few v /\ keys_vary v /\ CvResults.new v = Err KeyMismatch) \/
  (~ too_few v /\ ~ keys_vary v /\ presence_mixed StandardDeviation v /\
   CvResults.new v = Err (FieldPresenceMismatch StandardDeviation)) \/
  (~ too_few v /\ ~ keys_vary v /\ ~ presence_mixed StandardDeviation v /\
   presence_mixed Labcodes v /\
   CvResults.new v = Err (FieldPresenceMismatch Labcodes)) \/
  (~ too_few v /\ ~ keys_vary v /\ ~ presence_mixed StandardDeviation v /\
   ~ presence_mixed Labcodes v /\ presence_mixed FieldX v /\
   CvResults.new v = Err (FieldPresenceMismatch FieldX)) \/
  (~ too_few v /\ ~ keys_vary v /\ ~ presence_mixed StandardDeviation v /\
   ~ presence_mixed Labcodes v /\ ~ presence_mixed FieldX v /\ columns_differ v /\
   CvResults.new v = Err ColumnMismatch) \/
  (~ too_few v /\ ~ keys_vary v /\ ~ presence_mixed StandardDeviation v /\
   ~ presence_mixed Labcodes v /\ ~ presence_mixed FieldX v /\ ~ columns_differ v /\
   CvResults.new v = Ok {| CvResults.results := v |}).
Proof.
  destruct (decide (length v < 2)) as [Hf|Hf].
  { left. split; [done|]. by apply new_collection_few. }
  right. change (~ too_few v) in Hf.
  destruct (head_of_two v Hf) as (v0 & Hh & H0 & Hlen).
  pose proof (validate_results_unfold v v0 Hh Hlen) as U.
  unfold CvResults.new. rewrite U. clear U.
  destruct (existsb (key_test v0) v) eqn:Ek.
  { apply (key_test_iff v v0 Hh), key_differs_iff in Ek. left. done. }
  assert (~ keys_vary v) as Hk
    by (rewrite <- key_differs_iff, <- (key_test_iff v v0 Hh); congruence).
  right.
  destruct (existsb (presence_test StandardDeviation v0) v) eqn:Es.
  { apply (presence_test_iff _ v v0 H0) in Es. left. done. }
  assert (~ presence_mixed StandardDeviation v) as Hs
    by (rewrite <- (presence_test_iff _ v v0 H0); congruence).
  right.
  destruct (existsb (presence_test Labcodes v0) v) eqn:El.
  { apply (presence_test_iff _ v v0 H0) in El. left. done. }
  assert (~ presence_mixed Labcodes v) as Hl
    by (rewrite <- (presence_test_iff _ v v0 H0); congruence).
  right.
  destruct (existsb (presence_test FieldX v0) v) eqn:Ex.
  { apply (presence_test_iff _ v v0 H0) in Ex. left. done. }
  assert (~ presence_mixed FieldX v) as Hx
    by (rewrite <- (presence_test_iff _ v v0 H0); congruence).
  right.
  destruct (CvResult.X v0) as [X0|] eqn:E0.
  - destruct (existsb (columns_test X0) v) eqn:Ec.
    + apply (columns_test_iff v v0 X0 H0 E0) in Ec. left. done.
    + assert (~ columns_differ v)
        by (rewrite <- (columns_test_iff v v0 X0 H0 E0); congruence).
      right. done.
  - assert (~ columns_differ v) as Hc.
    { intros (r & r' & x & x' & Hr & _ & Er & _).
      destruct (presence_uniform FieldX v Hx) as [H|H].
      - specialize (H v0 H0). simpl in H. rewrite E0 in H.
        apply bool_decide_eq_true in H. by destruct H.
      - specialize (H r Hr). simpl in H. rewrite Er in H.
        apply bool_decide_eq_false in H. destruct H. eauto. }
    right. done.
Qed.

(** The constructor of a collection does not depend on the order of the
    folds: given the same folds in another order it fails with the same
    exception, or succeeds and holds the folds as given. *)
Theorem construction_ignores_fold_order (v v' : list CvResult.t) :
  v ≡ₚ v' ->
  (forall e, CvResults.new v = Err e <-> CvResults.new v' = Err e) /\
  (CvResults.new v = Ok {| CvResults.results := v |} <->
   CvResults.new v' = Ok {| CvResults.results := v' |}).
Proof.
  intros P.
  assert (too_few v <-> too_few v') as Hf by (unfold too_few; by rewrite P).
  assert (keys_vary v <-> keys_vary v') as Hk.
  { unfold keys_vary. by setoid_rewrite P. }
  assert (forall f, presence_mixed f v <-> presence_mixed f v') as Hp.
  { intros f. unfold presence_mixed. by setoid_rewrite P. }
  assert (columns_differ v <-> columns_differ v') as Hc.
  { unfold columns_differ. by setoid_rewrite P. }
  pose proof (Hp StandardDeviation) as Hs. pose proof (Hp Labcodes) as Hl.
  pose proof (Hp FieldX) as Hx. clear Hp P.
  destruct (collection_outcome v)
    as [[? E]|[(?&?&E)|[(?&?&?&E)|[(?&?&?&?&E)|[(?&?&?&?&?&E)|[(?&?&?&?&?&?&E)|(?&?&?&?&?&?&E)]]]]]];
  destruct (collection_outcome v')
    as [[? E']|[(?&?&E')|[(?&?&?&E')|[(?&?&?&?&E')|[(?&?&?&?&?&E')|[(?&?&?&?&?&?&E')|(?&?&?&?&?&?&E')]]]]]];
  try (exfalso; tauto); rewrite E, E'; split; try done; intros e; split; discriminate.
Qed.

Lemma construction_ignores_fold_order_witness :
  (forall e,
     CvResults.new [fold_plain; fold_with_sd] = Err e <->
     CvResults.new [fold_with_sd; fold_plain] = Err e) /\
  (CvResults.new [fold_plain; fold_with_sd]
     = Ok {| CvResults.results := [fold_plain; fold_with_sd] |} <->
   CvResults.new [fold_with_sd; fold_plain]
     = Ok {| CvResults.results := [fold_with_sd; fold_plain] |}).
Proof.
  apply (construction_ignores_fold_order [fold_plain; fold_with_sd] [fold_with_sd; fold_plain]).
  apply perm_swap.
Defined.

End FoldOrder.

(** ** Metrics of a collection *)

Section CollectionMetrics.
Context {L : StatLib}.

Lemma metric_name_inj (m m' : RegressionMetricsEnum) :
  metric_name m = metric_name m' -> m = m'.
Proof. destruct m, m'; simpl; intros [=]; reflexivity. Qed.

(** The series that GetMetric returns is named after the metric and has one
    value when the folds are combined, one per fold otherwise. *)
Lemma get_metric_shape (c : CvResults.t) (m : RegressionMetricsEnum) (b : bool)
    (s : MetricSeries float) :
  CvResults.get_metric c m b = Ok s ->
  name s = metric_name m /\
  length (data s) = if CvResults.is_loo c || b then 1 else length (CvResults.results c).
Proof.
  unfold CvResults.get_metric. destruct (CvResults.is_loo c || b).
  - destruct (CvResults._combine_folds c) as [cv|e]; simpl; [|discriminate].
    destruct (CvResult.get_metric cv m) as [x|e]; simpl; [|discriminate].
    by intros [= <-].
  - destruct (comprehension _ _) as [xs|e] eqn:E; simpl; [|discriminate].
    intros [= <-]. simpl. split; [done|].
    apply comprehension_Ok in E. symmetry. by eapply Forall2_length.
Qed.

Lemma columns_shape (c : CvResults.t) (ms : list RegressionMetricsEnum) (b : bool)
    (t : list (MetricSeries float)) :
  Forall2 (fun m col => CvResults.get_metric c m b = Ok col) ms t ->
  name <$> t = metric_name <$> ms /\
  Forall (fun col => length (data col)
                     = if CvResults.is_loo c || b then 1 else length (CvResults.results c)) t.
Proof.
  induction 1 as [|m col ms t E _ [IHn IHr]]; [done|].
  apply get_metric_shape in E as [En Er]. split.
  - rewrite !fmap_cons. by rewrite En, IHn.
  - by constructor.
Qed.

(** GetMetrics returns a table exactly when some metric is requested and
    GetMetric returns a series for every requested metric; the table has
    these series as its columns, in the order of the request and named
    after the metrics (distinctly, for distinct metrics), each with one row
    when the folds are combined and one row per fold otherwise. With no
    metric requested it raises the ValueError of pd.concat. *)
Theorem get_metrics_table (c : CvResults.t) (ms : list RegressionMetricsEnum) (b : bool) :
  (forall t, CvResults.get_metrics c ms b = Ok t <->
     ms <> [] /\ Forall2 (fun m col => CvResults.get_metric c m b = Ok col) ms t) /\
  (forall t, CvResults.get_metrics c ms b = Ok t ->
     name <$> t = metric_name <$> ms /\
     (NoDup ms -> NoDup (name <$> t)) /\
     Forall (fun col => length (data col)
                        = if CvResults.is_loo c || b then 1 else length (CvResults.results c)) t) /\
  (ms = [] ->
   CvResults.get_metrics c ms b = Err (PythonError "ValueError: No objects to concatenate")).
Proof.
  assert (forall t, CvResults.get_metrics c ms b = Ok t <->
            ms <> [] /\ Forall2 (fun m col => CvResults.get_metric c m b = Ok col) ms t) as Hiff.
  { intros t. unfold CvResults.get_metrics. rewrite <- comprehension_Ok.
    destruct (comprehension _ ms) as [series|e] eqn:E; simpl.
    - apply comprehension_Ok in E. destruct series as [|col series]; simpl.
      + apply Forall2_nil_inv_r in E as ->. split; [discriminate|].
        intros [H _]. by destruct H.
      + split; [|by intros [_ ?]].
        intros H. split; [|done]. intros ->. by apply Forall2_nil_inv_l in E.
    - split; [discriminate|]. by intros [_ ?]. }
  split; [exact Hiff|]. split.
  - intros t [Hne H2]%Hiff.
    destruct (columns_shape c ms b t H2) as [Hnames Hrows].
    split; [exact Hnames|]. split; [|exact Hrows].
    intros Hnd. rewrite Hnames. apply NoDup_fmap; [|done].
    intros m m'. apply metric_name_inj.
  - intros ->. reflexivity.
Qed.

End CollectionMetrics.

Lemma get_metrics_table_witness :
  exists t, CvResults.get_metrics (H := Reference.lib) folds_5_6 CvResults.default_metrics false
            = Ok t /\
    name <$> t = ["MAE"; "MSD"; "R2"; "MAPE"; "PEARSON"; "SPEARMAN"; "FISHER"] /\
    NoDup (name <$> t) /\
    Forall (fun col => length (data col) = 2) t.
Proof.
  destruct (get_metrics_table (L := Reference.lib) folds_5_6 CvResults.default_metrics false)
    as (_ & Hshape & _).
  eexists. split; [vm_compute; reflexivity|].
  edestruct Hshape as (Hn & Hd & Hl); [vm_compute; reflexivity|].
  split; [exact Hn|]. split; [|exact Hl].
  apply Hd. unfold CvResults.default_metrics.
  repeat (apply NoDup_cons; split; [set_solver|]). apply NoDup_nil_2.
Defined.

(** ** Folds of mixed sizes *)

Section MixedFoldSizes.
Context {L : StatLib}.

(** The metric per fold on a collection that is not leave-one-out:
    GetMetric with combineFolds false raises the exception of the first
    fold, in the order of the folds, whose own GetMetric raises. When the
    collection has a fold of exactly one sample there is such a fold, at or
    before the first fold of one sample, so no series is returned: the
    exception is InsufficientSamples when that fold has one sample, and
    the exception that the library raised on that fold's arrays otherwise.
    So a series that is returned shows that no fold has exactly one
    sample. *)
Theorem per_fold_metric_with_single_sample_fold (c : CvResults.t)
    (m : RegressionMetricsEnum) :
  CvResults.is_loo c = false ->
  (forall pre r post e, CvResults.results c = pre ++ r :: post ->
     Forall (fun r' => exists x, CvResult.get_metric r' m = Ok x) pre ->
     CvResult.get_metric r m = Err e ->
     CvResults.get_metric c m false = Err e) /\
  ((exists r1, r1 ∈ CvResults.results c /\ CvResult.n_samples r1 = 1) ->
   exists pre r post e, CvResults.results c = pre ++ r :: post /\
     Forall (fun r' => CvResult.n_samples r' <> 1 /\
                       exists x, CvResult.get_metric r' m = Ok x) pre /\
     CvResult.get_metric r m = Err e /\
     CvResults.get_metric c m false = Err e /\
     (CvResult.n_samples r = 1 -> e = InsufficientSamples) /\
     (CvResult.n_samples r <> 1 ->
      exists msg, metrics m (values (CvResult.observed r)) (values (CvResult.predicted r))
                    (CvResult.standard_deviation r) = Err msg /\
                  e = PythonError msg)) /\
  (forall s, CvResults.get_metric c m false = Ok s ->
     forall r, r ∈ CvResults.results c -> CvResult.n_samples r <> 1).
Proof.
  intros Hloo.
  assert (CvResults.is_loo c || false = false) as Hb by (by rewrite Hloo).
  split; [|split].
  - intros pre r post e Hres Hpre Er.
    apply (per_fold_metric_Err c m false e Hb). by exists pre, r, post.
  - intros (r1 & Hr1 & Hn1).
    destruct (CvResults.get_metric c m false) as [s|e] eqn:E.
    { by destruct (per_fold_metric_Ok c m false s Hb E r1 Hr1). }
    pose proof E as (pre & r & post & Hres & Hpre & Er)%(per_fold_metric_Err c m false e Hb).
    exists pre, r, post, e. split; [done|]. split; [|split; [done|split; [done|split]]].
    + eapply Forall_impl; [exact Hpre|]. intros r' [x Ex]. split; [|by exists x].
      intros Hn. by rewrite (single_sample_fold_fails r' m Hn) in Ex.
    + intros Hn. rewrite (single_sample_fold_fails r m Hn) in Er. by injection Er as <-.
    + intros Hn. by apply library_failure.
  - intros s. by apply per_fold_metric_Ok.
Qed.

End MixedFoldSizes.

Lemma per_fold_metric_with_single_sample_fold_witness :
  CvResults.new (CvResults.results folds_5_5_1) = Ok folds_5_5_1 /\
  CvResults.is_loo folds_5_5_1 = false /\
  CvResults.get_metric (H := Reference.lib) folds_5_5_1 MAE false = Err InsufficientSamples /\
  exists s, CvResults.get_metric (H := Reference.lib) folds_5_5_1 MAE true = Ok s.
Proof.
  split; [reflexivity|]. split; [reflexivity|]. split.
  - destruct (per_fold_metric_with_single_sample_fold (L := Reference.lib) folds_5_5_1 MAE
                eq_refl) as (Hfirst & _ & _).
    apply (Hfirst [generate_cvresult "a" 5 false false; generate_cvresult "a" 5 false false]
             (generate_cvresult "a" 1 false false) []); [reflexivity| |reflexivity].
    repeat constructor; eexists; vm_compute; reflexivity.
  - eexists. vm_compute. reflexivity.
Defined.

(** ** Where a fold's samples go in the combination *)

(** The position in the combined fold of sample [i] of fold [k]: after the
    samples of the folds before it. *)
Definition position (v : list CvResult.t) (k i : nat) : nat :=
  sum_list_with CvResult.n_samples (take k v) + i.

Section CombinationPositions.

Lemma concat_parts_lookup {A B} (get : CvResult.t -> option A) (vals : A -> list B)
    (v : list CvResult.t) (parts : list A) (k : nat) (r : CvResult.t) (a : A) (i : nat) :
  (forall r p, r ∈ v -> get r = Some p -> length (vals p) = CvResult.n_samples r) ->
  Forall2 (fun r p => get r = Some p) v parts ->
  v !! k = Some r -> get r = Some a -> i < CvResult.n_samples r ->
  concat (vals <$> parts) !! position v k i = vals a !! i.
Proof.
  intros Hlen H2. revert k. unfold position.
  induction H2 as [|r' p v parts E _ IH]; intros k Hk Ea Hi; [done|].
  rewrite fmap_cons. cbn [concat].
  pose proof (Hlen r' p ltac:(by left) E) as Hp.
  destruct k as [|k]; simpl in Hk.
  - injection Hk as ->. rewrite Ea in E. injection E as <-.
    cbn [take sum_list_with]. rewrite Nat.add_0_l.
    apply lookup_app_l. lia.
  - cbn [take sum_list_with]. rewrite lookup_app_r by lia.
    replace (CvResult.n_samples r' + sum_list_with CvResult.n_samples (take k v) + i
             - length (vals p))
      with (sum_list_with CvResult.n_samples (take k v) + i) by lia.
    apply IH; [|done..]. intros r'' p' Hr''. apply Hlen. by right.
Qed.

Lemma position_bound (v : list CvResult.t) (k i : nat) (r : CvResult.t) :
  v !! k = Some r -> i < CvResult.n_samples r ->
  position v k i < sum_list_with CvResult.n_samples v.
Proof.
  unfold position. revert k. induction v as [|r' v IH]; intros k Hk Hi; [done|].
  destruct k as [|k]; simpl in *.
  - injection Hk as ->. lia.
  - specialize (IH k Hk Hi). lia.
Qed.

Lemma required_parts {A} (get : CvResult.t -> A) (v : list CvResult.t) :
  Forall2 (fun r p => Some (get r) = Some p) v (get <$> v).
Proof. apply Forall2_fmap_r, Forall_Forall2_diag, Forall_true. done. Qed.

Lemma optional_part_lookup {A B} (is_cat : list A -> A -> Prop) (vals : A -> list B)
    (get : CvResult.t -> option A) (v : list CvResult.t) (o : option A)
    (k : nat) (r : CvResult.t) (a : A) (i : nat) :
  (forall parts x, is_cat parts x -> vals x = concat (vals <$> parts)) ->
  (forall r p, r ∈ v -> get r = Some p -> length (vals p) = CvResult.n_samples r) ->
  optional_concatenation is_cat get v o ->
  v !! k = Some r -> get r = Some a -> i < CvResult.n_samples r ->
  exists x, o = Some x /\ vals x !! position v k i = vals a !! i.
Proof.
  intros Hcat Hlen [(parts & x & H2 & -> & Hx)|[Hnone _]] Hk Ea Hi.
  - exists x. split; [done|]. rewrite (Hcat parts x Hx).
    by apply (concat_parts_lookup get vals v parts k r a i).
  - rewrite (Hnone r) in Ea; [done|]. by eapply list_elem_of_lookup_2.
Qed.

(** Combining keeps every sample and keeps its fields together: sample i of
    fold k of a valid collection is sample [position k i] of the fold that
    CombineFolds returns, which has there the observed and the predicted
    value of that sample under the index label [position k i], its
    standard deviation and its labcode when the folds have these, and its
    row of X, read by the columns of the combined X. *)
Theorem combination_keeps_samples (c : CvResults.t) (cv r : CvResult.t) (k i : nat) :
  valid_collection c ->
  CvResults._combine_folds c = Ok cv ->
  CvResults.results c !! k = Some r ->
  i < CvResult.n_samples r ->
  let j := position (CvResults.results c) k i in
  j < CvResult.n_samples cv /\
  values (CvResult.observed cv) !! j = values (CvResult.observed r) !! i /\
  values (CvResult.predicted cv) !! j = values (CvResult.predicted r) !! i /\
  index (CvResult.observed cv) !! j = Some j /\
  index (CvResult.predicted cv) !! j = Some j /\
  (forall s, CvResult.standard_deviation r = Some s ->
     exists s', CvResult.standard_deviation cv = Some s' /\ values s' !! j = values s !! i) /\
  (forall l, CvResult.labcodes r = Some l ->
     exists l', CvResult.labcodes cv = Some l' /\ values l' !! j = values l !! i) /\
  (forall x, CvResult.X r = Some x ->
     exists x', CvResult.X cv = Some x' /\ (rows x').*2 !! j = align (columns x') x !! i).
Proof.
  intros Hc E Hk Hi j.
  destruct (valid_collection_inv c Hc) as (_ & _ & _ & Hv & _).
  destruct (combine_folds_cases c Hc) as [[_ (cv' & E' & _ & Hcomb)]|[_ E']];
    rewrite E' in E; [|discriminate].
  injection E as ->.
  destruct Hcomb as (_ & [Ho Hio] & [Hp Hip] & Hsd & Hlc & HX & Hn).
  assert (j < CvResult.n_samples cv) as Hj.
  { rewrite Hn. by eapply position_bound. }
  assert (forall f r p, r ∈ CvResults.results c -> field_len r f = Some p ->
            p = CvResult.n_samples r) as Hlen.
  { intros f r' p Hr'. apply constructed_field_len. by eapply Forall_forall in Hv. }
  assert (length (CvResult.predicted cv) = CvResult.n_samples cv) as Hpn.
  { unfold CvResult.n_samples.
    rewrite <- (length_values (CvResult.predicted cv)),
      <- (length_values (CvResult.observed cv)), Hp, Ho.
    rewrite !length_concat_with, !sum_list_with_fmap.
    apply sum_list_with_ext_in. intros r' Hr'. rewrite !length_values.
    by apply (Hlen Predicted r'). }
  split; [exact Hj|]. split; [|split; [|split; [|split; [|split; [|split]]]]].
  - rewrite Ho.
    apply (concat_parts_lookup (fun r => Some (CvResult.observed r)) values
             (CvResults.results c) _ k r); [|apply required_parts|done..].
    intros r' p _ [= <-]. apply length_values.
  - rewrite Hp.
    apply (concat_parts_lookup (fun r => Some (CvResult.predicted r)) values
             (CvResults.results c) _ k r); [|apply required_parts|done..].
    intros r' p Hr' [= <-]. rewrite length_values. by apply (Hlen Predicted r').
  - rewrite Hio. apply lookup_seq. split; [done|]. exact Hj.
  - rewrite Hip, Hpn. apply lookup_seq. split; [done|]. exact Hj.
  - intros s Es.
    apply (optional_part_lookup series_concatenation values CvResult.standard_deviation
             (CvResults.results c) _ k r s i); [by intros ?? [? _]| |done..].
    intros r' p Hr' Ep. rewrite length_values.
    apply (Hlen StandardDeviation r'); [done|]. simpl. by rewrite Ep.
  - intros l El.
    apply (optional_part_lookup series_concatenation values CvResult.labcodes
             (CvResults.results c) _ k r l i); [by intros ?? [? _]| |done..].
    intros r' p Hr' Ep. rewrite length_values.
    apply (Hlen Labcodes r'); [done|]. simpl. by rewrite Ep.
  - intros x Ex.
    destruct HX as [(parts & x' & H2 & Ex' & _ & Hrows & _)|[Hnone _]].
    + exists x'. split; [done|]. rewrite Hrows.
      apply (concat_parts_lookup CvResult.X (align (columns x'))
               (CvResults.results c) parts k r x i); [|done..].
      intros r' p Hr' Ep. rewrite length_align.
      apply (Hlen FieldX r'); [done|]. simpl. by rewrite Ep.
    + rewrite (Hnone r) in Ex; [done|]. by eapply list_elem_of_lookup_2.
Qed.

End CombinationPositions.

Lemma combination_keeps_samples_witness :
  exists cv, CvResults._combine_folds folds_5_6 = Ok cv /\
    position (CvResults.results folds_5_6) 1 2 = 7 /\
    values (CvResult.observed cv) !! 7 = Some (Num (12 # 1)) /\
    values (CvResult.predicted cv) !! 7 = Some (Num (13 # 1)) /\
    index (CvResult.observed cv) !! 7 = Some 7 /\
    (exists l', CvResult.labcodes cv = Some l' /\ values l' !! 7 = Some (Str "2")) /\
    (exists x', CvResult.X cv = Some x' /\
       (rows x').*2 !! 7 = Some [Num (12 # 1); Num (14 # 1)]).
Proof.
  destruct (combine_folds_cases folds_5_6 folds_5_6_valid)
    as [[_ (cv & E & _)]|[Hnal _]]; [|by destruct Hnal; apply folds_5_6_alignable].
  destruct (combination_keeps_samples folds_5_6 cv (generate_cvresult "a" 6 true true) 1 2
              folds_5_6_valid E eq_refl ltac:(vm_compute; lia))
    as (_ & Ho & Hp & Hio & _ & _ & Hlc & HX).
  exists cv. split; [exact E|]. split; [reflexivity|].
  split; [exact Ho|]. split; [exact Hp|]. split; [exact Hio|]. split.
  - destruct (Hlc _ eq_refl) as (l' & El & Hl). by exists l'.
  - destruct (HX _ eq_refl) as (x' & Ex & Hx). exists x'. split; [done|].
    vm_compute in E. injection E as <-. injection Ex as <-. exact Hx.
Defined.
